(** * The default 3D render pipeline of webgpu-engine

    A shallow embedding of [src/pipelines/default_3d_pipeline.ts]: the
    uniform packing, the grow-or-write policy of the transform buffer and
    the per-frame command sequence of [render], run against a small model
    of the WebGPU device (buffer store, handle allocation, command trace). *)

From Stdlib Require Import ZArith NArith.
From Stdlib Require Import Floats.PrimFloat Floats.SpecFloat Floats.FloatOps.
From Stdlib Require Import Floats.FloatAxioms.
From Stdlib Require Import Numbers.Cyclic.Int63.Uint63.
From stdpp Require Import base gmap list strings vector.

Local Open Scope nat_scope.

(** ** Numbers and typed arrays *)

(** A JS [number] is an IEEE binary64 value. *)
Abbreviation number := float (only parsing).

(** [Math.fround]: rounding to the nearest binary32 value (24 bits of
    precision, exponents up to 2^128), ties to even. *)
Definition fround (x : number) : number :=
  match Prim2SF x with
  | S754_finite s m e =>
      SF2Prim (binary_normalize 24 128 (cond_Zopp s (Zpos m)) e s)
  | _ => x
  end.

(** [new Float32Array(xs)]: every element is stored in single precision. *)
Definition Float32Array (xs : list number) : list number := map fround xs.

(** [arr.byteLength] of a [Float32Array]. *)
Definition byteLength (arr : list number) : nat := length arr * 4.

(** An array length used as a number ([scene.lights.length]). *)
Definition number_of_nat (n : nat) : number :=
  PrimFloat.of_uint63 (Uint63.of_Z (Z.of_nat n)).



(** gl-matrix's [mat4]: sixteen numbers, column-major. *)
Abbreviation mat4 := (vec number 16) (only parsing).

(** The spread [...m] of a matrix into an array literal. *)
Definition spread (m : mat4) : list number := vec_to_list m.

(** ** Uniform layout *)

Definition DEFAULT_3D_UNIFORM_DATA_SIZE_FLOAT : nat := 4 + 4 * 4 + 4 * 4 + 10 * 4 * 2.

(** ** The scene, as [render] reads it

    [Scene], its objects, lights and camera are declared outside this file;
    the records below hold what [render] and [construct_pipeline] access. *)

(** A light: [position] and [color] are spread into the uniform data, so
    only their element sequences matter. *)
Record Light := {
  position : list number;
  color : list number;
}.

Record Camera := {
  get_view_matrix : mat4;
  get_projection_matrix : mat4;
}.

(** The per-light record of the uniform data:
    [[...light.position, 0.0, ...light.color]]. *)
Definition light_record (light : Light) : list number :=
  position light ++ [0%float] ++ color light.

(** [scene.lights.reduce((acc, light) => acc.concat([...]), [])]. *)
Definition lights_data (lights : list Light) : list number :=
  fold_left (λ acc light, acc ++ light_record light) lights [].

(** The array literal handed to [new Float32Array] at the "Setup the uniform
    data" step of [render]. *)
Definition uniform_fields (has_texture_diffuse has_texture_specular
    has_texture_normal : number) (camera : Camera) (lights : list Light)
    : list number :=
  [has_texture_diffuse; has_texture_specular; has_texture_normal;
   number_of_nat (length lights)]
  ++ spread (get_view_matrix camera)
  ++ spread (get_projection_matrix camera)
  ++ lights_data lights.

Definition uniform_data (has_texture_diffuse has_texture_specular
    has_texture_normal : number) (camera : Camera) (lights : list Light)
    : list number :=
  Float32Array
    (uniform_fields has_texture_diffuse has_texture_specular
       has_texture_normal camera lights).


(** ** WebGPU objects

    Device objects are identified by the handle the device gave them. A
    buffer's [size] and [usage] are read-only attributes of the handle. *)

Abbreviation Handle := nat (only parsing).
Abbreviation GPUTexture := nat (only parsing).
Abbreviation GPUTextureView := nat (only parsing).
Abbreviation GPURenderPipeline := nat (only parsing).

Record GPUBuffer := {
  buffer_id : Handle;
  buffer_size : nat;       (* [size], in bytes *)
  buffer_usage : N;        (* [usage], a bit set of [GPUBufferUsage] flags *)
}.

Module GPUBufferUsage.
Definition COPY_DST : N := 0x0008.
Definition UNIFORM : N := 0x0040.
Definition STORAGE : N := 0x0080.
End GPUBufferUsage.

Module GPUShaderStage.
Definition VERTEX : N := 0x1.
Definition FRAGMENT : N := 0x2.
End GPUShaderStage.

Inductive BindingLayout :=
| buffer_layout (type : string)
| sampler_layout
| texture_layout.

Record GPUBindGroupLayoutEntry := {
  layout_binding : nat;
  visibility : N;
  binding_layout : BindingLayout;
}.

Definition bind_group_layout_descriptor : list GPUBindGroupLayoutEntry :=
  [ {| layout_binding := 0;
       visibility := N.lor GPUShaderStage.VERTEX GPUShaderStage.FRAGMENT;
       binding_layout := buffer_layout "uniform" |};
    {| layout_binding := 1; visibility := GPUShaderStage.FRAGMENT;
       binding_layout := sampler_layout |};
    {| layout_binding := 2; visibility := GPUShaderStage.FRAGMENT;
       binding_layout := texture_layout |};
    {| layout_binding := 3; visibility := GPUShaderStage.FRAGMENT;
       binding_layout := texture_layout |};
    {| layout_binding := 4; visibility := GPUShaderStage.FRAGMENT;
       binding_layout := texture_layout |};
    {| layout_binding := 5; visibility := GPUShaderStage.VERTEX;
       binding_layout := buffer_layout "read-only-storage" |} ].

Record GPUVertexAttribute := {
  shaderLocation : nat;
  attribute_offset : nat;
  format : string;
}.

Record GPURenderPipelineDescriptor := {
  label : string;
  pipeline_layout : Handle;
  vertex_module : Handle;
  arrayStride : nat;
  attributes : list GPUVertexAttribute;
  fragment_module : Handle;
  target_format : string;
  topology : string;
  depth_format : string;
  depthWriteEnabled : bool;
  depthCompare : string;
}.

Inductive GPUBindingResource :=
| buffer_binding (buffer : GPUBuffer) (offset size : nat)
| sampler_binding (sampler : Handle)
| view_binding (view : GPUTextureView).

Record GPUBindGroupDescriptor := {
  layout : Handle;
  entries : list (nat * GPUBindingResource);
}.

(** ** The scene's objects *)

(** What an object names a texture by. *)
Abbreviation TextureRef := (option string) (only parsing).

Record ModelData := {
  vertex_data_gpu : GPUBuffer;
  indices_gpu : GPUBuffer;
  index_count : nat;
}.

Record SceneObject := {
  pipeline_key : string;
  has_texture_diffuse : bool;
  has_texture_specular : bool;
  has_texture_normal : bool;
  texture_diffuse : TextureRef;
  texture_specular : TextureRef;
  texture_normal : TextureRef;
  get_model_matrix : mat4;
  (* what the promise of [get_model_data()] settles to; [None]: rejected *)
  get_model_data : option ModelData;
}.

Record Scene := {
  (* [shader_manager.get_shader(path)]; [None]: the promise is rejected *)
  get_shader : string → option string;
  presentation_format : string;
  (* [texture_manager.load_texture(ref)]; [None]: the promise is rejected *)
  load_texture : TextureRef → option GPUTexture;
  texture_view : option GPUTextureView;
  depth_texture_view : option GPUTextureView;
  objects : list SceneObject;
  lights : list Light;
  camera : Camera;
}.

(** ** Events: what one call does to the outside world, in order *)

Inductive GPUCommand :=
| createShaderModule (code : string) (module : Handle)
| createBindGroupLayout (descriptor : list GPUBindGroupLayoutEntry) (l : Handle)
| createPipelineLayout (bindGroupLayouts : list Handle) (l : Handle)
| createRenderPipeline (descriptor : GPURenderPipelineDescriptor)
    (pipeline : GPURenderPipeline)
| createBuffer (buffer : GPUBuffer) (initial_data : list number)
| destroy (buffer : GPUBuffer)
| writeBuffer (buffer : GPUBuffer) (bufferOffset : nat) (data : list number)
| beginRenderPass (view depth_view : GPUTextureView) (render_pass : Handle)
    (* both attachments are cleared on load and stored; the clear values
       are the constants of the source *)
| setPipeline (render_pass : Handle) (pipeline : GPURenderPipeline)
| createSampler (sampler : Handle)
| createView (texture : GPUTexture) (view : GPUTextureView)
| getBindGroupLayout (pipeline : GPURenderPipeline) (index : nat) (l : Handle)
| createBindGroup (descriptor : GPUBindGroupDescriptor) (group : Handle)
| setBindGroup (render_pass : Handle) (index : nat) (group : Handle)
| setVertexBuffer (render_pass : Handle) (slot : nat) (buffer : GPUBuffer)
| setIndexBuffer (render_pass : Handle) (buffer : GPUBuffer) (indexFormat : string)
| drawIndexed (render_pass : Handle)
    (indexCount instanceCount firstIndex baseVertex firstInstance : nat)
| end_pass (render_pass : Handle).

(** The promises an [await] suspends on. *)
Inductive Suspension :=
| await_get_shader (shader_path : string)
| await_load_texture (ref : TextureRef)
| await_get_model_data.

Inductive Event :=
| GPU (command : GPUCommand)
| Await (on : Suspension).

Definition is_createBuffer (e : Event) : bool :=
  match e with GPU (createBuffer _ _) => true | _ => false end.

Definition is_destroy (e : Event) : bool :=
  match e with GPU (destroy _) => true | _ => false end.

(** ** The device

    [SystemCore] stands for the device and its command encoder. The calls
    made on them are appended to [trace]; the device executes them in that
    order (see [execute] below). *)
Record SystemCore := {
  next_handle : Handle;
  trace : list Event;
}.

Definition record (e : Event) (core : SystemCore) : SystemCore :=
  {| next_handle := next_handle core; trace := trace core ++ [e] |}.

Definition allocate_handle (core : SystemCore) : SystemCore :=
  {| next_handle := S (next_handle core); trace := trace core |}.

(** *** Buffer memory, as the device keeps it *)

Record BufferState := {
  contents : list number;   (* one entry per 32-bit float *)
  destroyed : bool;
}.

(** The device-timeline validation of [GPUQueue.writeBuffer]. *)
Definition write_valid (store : gmap nat BufferState) (buffer : GPUBuffer)
    (bufferOffset : nat) (data : list number) : bool :=
  match store !! buffer_id buffer with
  | Some state =>
      negb (destroyed state)
      && negb (N.eqb (N.land (buffer_usage buffer) GPUBufferUsage.COPY_DST) 0)
      && (bufferOffset mod 4 =? 0)
      && (bufferOffset + byteLength data <=? buffer_size buffer)
  | None => false
  end.

(** Memory after a write of [data] at byte offset [bufferOffset]: the
    elements before and after the written range are kept. *)
Definition written (bufferOffset : nat) (data old : list number) : list number :=
  take (bufferOffset / 4) old ++ data
  ++ drop (bufferOffset / 4 + length data) old.

Definition store_write (buffer : GPUBuffer) (bufferOffset : nat)
    (data : list number) (store : gmap nat BufferState) : gmap nat BufferState :=
  alter (λ state, {| contents := written bufferOffset data (contents state);
                     destroyed := destroyed state |})
    (buffer_id buffer) store.

Definition store_destroy (buffer : GPUBuffer) (store : gmap nat BufferState)
    : gmap nat BufferState :=
  alter (λ state, {| contents := contents state; destroyed := true |})
    (buffer_id buffer) store.

Definition store_create (buffer : GPUBuffer) (initial_data : list number)
    (store : gmap nat BufferState) : gmap nat BufferState :=
  <[buffer_id buffer := {| contents := initial_data; destroyed := false |}]> store.

(** What one event does to the buffer memory. A write that fails validation
    is dropped. *)
Definition execute (store : gmap nat BufferState) (e : Event)
    : gmap nat BufferState :=
  match e with
  | GPU (createBuffer buffer initial_data) => store_create buffer initial_data store
  | GPU (destroy buffer) => store_destroy buffer store
  | GPU (writeBuffer buffer bufferOffset data) =>
      if write_valid store buffer bufferOffset data
      then store_write buffer bufferOffset data store
      else store
  | _ => store
  end.

Definition execute_all (store : gmap nat BufferState) (events : list Event)
    : gmap nat BufferState :=
  foldl execute store events.

(** The buffer memory once the device has executed everything issued. *)
Definition memory (core : SystemCore) : gmap nat BufferState :=
  execute_all ∅ (trace core).

(** The event acts on the buffer with handle [id]. *)
Definition touches (e : Event) (id : Handle) : Prop :=
  match e with
  | GPU (createBuffer buffer _) | GPU (destroy buffer)
  | GPU (writeBuffer buffer _ _) => buffer_id buffer = id
  | _ => False
  end.

(** ** Asynchronous computations over a state

    A call either fulfils with a value or rejects; the effects made before
    a rejection stay. *)

Inductive Failure :=
| rejected_by (on : Suspension)   (* the awaited promise was rejected *)
| TypeError (field : string).     (* [undefined] was used where an object is required *)

Inductive Completion (A : Type) :=
| Fulfilled (value : A)
| Rejected (reason : Failure).
Arguments Fulfilled {A} value.
Arguments Rejected {A} reason.

Definition Async (S A : Type) : Type := S → Completion A * S.

Definition ret {S A} (a : A) : Async S A := λ st, (Fulfilled a, st).

Definition throw {S A} (reason : Failure) : Async S A := λ st, (Rejected reason, st).

Definition bind {S A B} (m : Async S A) (k : A → Async S B) : Async S B :=
  λ st, match m st with
        | (Fulfilled a, st') => k a st'
        | (Rejected reason, st') => (Rejected reason, st')
        end.

Notation "'let!' x ':=' m 'in' k" := (bind m (λ x, k))
  (at level 10, x name, m at level 100, k at level 200,
   format "'[v' 'let!'  x  ':='  m  'in' '/' k ']'").
Notation "m ';;' k" := (bind m (λ _, k))
  (at level 100, k at level 200, right associativity,
   format "'[v' m  ';;' '/' k ']'").

(** ** Calls on the device *)

Definition emit (command : GPUCommand) : Async SystemCore unit :=
  λ core, (Fulfilled tt, record (GPU command) core).

(** The handle of a newly created device object. *)
Definition new_object : Async SystemCore Handle :=
  λ core, (Fulfilled (next_handle core), allocate_handle core).

(** [await promise]: the caller is suspended, then resumes with the value
    or rejects. *)
Definition await {A} (on : Suspension) (settled : option A) : Async SystemCore A :=
  λ core, (match settled with
           | Some a => Fulfilled a
           | None => Rejected (rejected_by on)
           end, record (Await on) core).

Definition device_createShaderModule (code : string) : Async SystemCore Handle :=
  let! module := new_object in
  emit (createShaderModule code module);;
  ret module.

Definition device_createBindGroupLayout
    (descriptor : list GPUBindGroupLayoutEntry) : Async SystemCore Handle :=
  let! l := new_object in
  emit (createBindGroupLayout descriptor l);;
  ret l.

Definition device_createPipelineLayout (bindGroupLayouts : list Handle)
    : Async SystemCore Handle :=
  let! l := new_object in
  emit (createPipelineLayout bindGroupLayouts l);;
  ret l.

Definition device_createRenderPipeline (descriptor : GPURenderPipelineDescriptor)
    : Async SystemCore GPURenderPipeline :=
  let! pipeline := new_object in
  emit (createRenderPipeline descriptor pipeline);;
  ret pipeline.

(** Modelled from the spec: [create_gpu_buffer] of [util/gpu_util], which is
    not part of the sources at hand. "Allocates a buffer sized to
    [initial_data], uploads it, returns an owning handle." The spec adds
    "Fails (fatal, unrecoverable locally) if device allocation fails": that
    failure is not modelled, here or for the [device.create...] calls, so
    what is proved of a call is proved of the runs in which the device
    allocates what it is asked for. *)
Definition create_gpu_buffer (initial_data : list number) (usage : N)
    : Async SystemCore GPUBuffer :=
  let! id := new_object in
  let buffer := {| buffer_id := id; buffer_size := byteLength initial_data;
                   buffer_usage := usage |} in
  emit (createBuffer buffer initial_data);;
  ret buffer.

(** [buffer.destroy()]. *)
Definition buffer_destroy (buffer : GPUBuffer) : Async SystemCore unit :=
  emit (destroy buffer).

(** [device.queue.writeBuffer(buffer, bufferOffset, data)]: the write is
    queued and the caller goes on. *)
Definition queue_writeBuffer (buffer : GPUBuffer) (bufferOffset : nat)
    (data : list number) : Async SystemCore unit :=
  emit (writeBuffer buffer bufferOffset data).

Definition command_encoder_beginRenderPass (view depth_view : GPUTextureView)
    : Async SystemCore Handle :=
  let! render_pass := new_object in
  emit (beginRenderPass view depth_view render_pass);;
  ret render_pass.

Definition device_createSampler : Async SystemCore Handle :=
  let! sampler := new_object in
  emit (createSampler sampler);;
  ret sampler.

Definition texture_createView (texture : GPUTexture)
    : Async SystemCore GPUTextureView :=
  let! view := new_object in
  emit (createView texture view);;
  ret view.

Definition pipeline_getBindGroupLayout (pipeline : GPURenderPipeline)
    (index : nat) : Async SystemCore Handle :=
  let! l := new_object in
  emit (getBindGroupLayout pipeline index l);;
  ret l.

Definition device_createBindGroup (descriptor : GPUBindGroupDescriptor)
    : Async SystemCore Handle :=
  let! group := new_object in
  emit (createBindGroup descriptor group);;
  ret group.

(** ** The pipeline *)

Record Default3DPipeLine := {
  shader_path : string;               (* inherited from [PipeLine] *)
  gpu_pipeline : GPURenderPipeline;   (* inherited from [PipeLine] *)
  model_transforms : option GPUBuffer;
  uniform_buffer : option GPUBuffer;
}.

Definition get_pipeline_label : string := "default_3d".

(** [pipeline.uniform_buffer = buffer]. *)
Definition with_uniform_buffer (buffer : GPUBuffer) (pipeline : Default3DPipeLine)
    : Default3DPipeLine :=
  {| shader_path := shader_path pipeline;
     gpu_pipeline := gpu_pipeline pipeline;
     model_transforms := model_transforms pipeline;
     uniform_buffer := Some buffer |}.

(** [pipeline.model_transforms = buffer]. *)
Definition with_model_transforms (buffer : GPUBuffer) (pipeline : Default3DPipeLine)
    : Default3DPipeLine :=
  {| shader_path := shader_path pipeline;
     gpu_pipeline := gpu_pipeline pipeline;
     model_transforms := Some buffer;
     uniform_buffer := uniform_buffer pipeline |}.

(** Modelled from the spec: the constructor inherited from the [PipeLine]
    base class, which is not part of the sources at hand. The pipeline
    holds the shader identifier it was made from and the compiled pipeline
    state; [render] reads both back. *)
Definition new_Default3DPipeLine (shader_path : string)
    (pipeline : GPURenderPipeline) : Default3DPipeLine :=
  {| shader_path := shader_path; gpu_pipeline := pipeline;
     model_transforms := None; uniform_buffer := None |}.

Definition construct_pipeline (shader_path : string) (scene : Scene)
    : Async SystemCore Default3DPipeLine :=
  let! shader := await (await_get_shader shader_path)
                   (get_shader scene shader_path) in
  let! module := device_createShaderModule shader in
  let! bind_group_layout :=
    device_createBindGroupLayout bind_group_layout_descriptor in
  let! pipeline_layout := device_createPipelineLayout [bind_group_layout] in
  let! pipeline :=
    device_createRenderPipeline
      {| label := "default_3d";
         pipeline_layout := pipeline_layout;
         vertex_module := module;
         arrayStride := 16 * 3;
         attributes :=
           [ {| shaderLocation := 0; attribute_offset := 0; format := "float32x4" |};
             {| shaderLocation := 1; attribute_offset := 16; format := "float32x4" |};
             {| shaderLocation := 2; attribute_offset := 32; format := "float32x4" |} ];
         fragment_module := module;
         target_format := presentation_format scene;
         topology := "triangle-list";
         depth_format := "depth24plus";
         depthWriteEnabled := true;
         depthCompare := "less" |} in
  let default_3d_pipeline := new_Default3DPipeLine shader_path pipeline in
  let! buffer :=
    create_gpu_buffer
      (Float32Array (replicate DEFAULT_3D_UNIFORM_DATA_SIZE_FLOAT 0%float))
      (N.lor GPUBufferUsage.UNIFORM GPUBufferUsage.COPY_DST) in
  ret (with_uniform_buffer buffer default_3d_pipeline).

(** ** One frame *)

(** [render] runs on a pipeline instance ([this]) and the system core. *)
Record RenderState := {
  this : Default3DPipeLine;
  core : SystemCore;
}.

Definition on_core {A} (m : Async SystemCore A) : Async RenderState A :=
  λ st, let (completion, core') := m (core st) in
        (completion, {| this := this st; core := core' |}).

Definition get_this : Async RenderState Default3DPipeLine :=
  λ st, (Fulfilled (this st), st).

(** [this.model_transforms = buffer]. *)
Definition set_model_transforms (buffer : GPUBuffer) : Async RenderState unit :=
  λ st, (Fulfilled tt,
         {| this := with_model_transforms buffer (this st); core := core st |}).

(** A use of [this.field!] where a buffer is required: TypeScript checks
    nothing at run time, and the use of [undefined] throws. *)
Definition non_null {S A} (field : string) (value : option A) : Async S A :=
  match value with
  | Some a => ret a
  | None => throw (TypeError field)
  end.

(** [this.model_transforms?.size ?? 0]. *)
Definition current_model_transforms_size (pipeline : Default3DPipeLine) : nat :=
  match model_transforms pipeline with
  | Some buffer => buffer_size buffer
  | None => 0
  end.

(** [cond ? 1.0 : 0.0]. *)
Definition flag (present : bool) : number :=
  if present then 1%float else 0%float.

(** The transform data of the selected objects:
    [relevant_scene_objects.flatMap((obj) => [...obj.get_model_matrix()])]. *)
Definition model_transforms_data (relevant_scene_objects : list SceneObject)
    : list number :=
  Float32Array
    (flat_map (λ obj, spread (get_model_matrix obj)) relevant_scene_objects).

Definition needed_model_transform_size
    (relevant_scene_objects : list SceneObject) : nat :=
  length relevant_scene_objects * 16 * 4.

Section Pipeline.

(** Modelled from the spec: [get_pipeline_key], the static method of the
    [PipeLine] base class, which is not part of the sources at hand: "a
    static, pure function mapping a shader identifier to a PipelineKey
    (pure string transform, no device access)". *)
Context (get_pipeline_key : string → string).

(** The objects routed to this pipeline ("Get relevant scene objects" in
    [render]). *)
Definition relevant_objects (pipeline : Default3DPipeLine) (scene : Scene)
    : list SceneObject :=
  let key := get_pipeline_key (shader_path pipeline) in
  filter (λ object, pipeline_key object = key) (objects scene).

(** The grow-or-write step on [this.model_transforms] ("Setup the model
    transforms" in [render]). *)
Definition upload_model_transforms (relevant_scene_objects : list SceneObject)
    : Async RenderState unit :=
  let data := model_transforms_data relevant_scene_objects in
  let needed := needed_model_transform_size relevant_scene_objects in
  let! self := get_this in
  let current := current_model_transforms_size self in
  if decide (current < needed) then   (* [needed > current] *)
    match model_transforms self with
    | Some old => on_core (buffer_destroy old)
    | None => ret tt
    end;;
    let! buffer :=
      on_core (create_gpu_buffer data
                 (N.lor GPUBufferUsage.STORAGE GPUBufferUsage.COPY_DST)) in
    set_model_transforms buffer
  else
    let! buffer := non_null "model_transforms" (model_transforms self) in
    on_core (queue_writeBuffer buffer 0 data).

(** [render]. The guard [length === 0 || !texture_view || !depth_texture_view]
    and the later [relevant_scene_objects[0]] are one match: past the guard
    the list has a first element and both views are defined. *)
Definition render (scene : Scene) : Async RenderState unit :=
  let! self := get_this in
  let relevant_scene_objects := relevant_objects self scene in
  match relevant_scene_objects, texture_view scene, depth_texture_view scene with
  | object_0 :: _, Some view, Some depth_view =>
      let! render_pass :=
        on_core (command_encoder_beginRenderPass view depth_view) in
      on_core (emit (setPipeline render_pass (gpu_pipeline self)));;
      (* Get textures *)
      let diffuse_present := flag (has_texture_diffuse object_0) in
      let specular_present := flag (has_texture_specular object_0) in
      let normal_present := flag (has_texture_normal object_0) in
      let! diffuse :=
        on_core (await (await_load_texture (texture_diffuse object_0))
                   (load_texture scene (texture_diffuse object_0))) in
      let! specular :=
        on_core (await (await_load_texture (texture_specular object_0))
                   (load_texture scene (texture_specular object_0))) in
      let! normal :=
        on_core (await (await_load_texture (texture_normal object_0))
                   (load_texture scene (texture_normal object_0))) in
      (* Setup the model transforms *)
      upload_model_transforms relevant_scene_objects;;
      (* Setup the uniform data *)
      let data :=
        uniform_data diffuse_present specular_present normal_present
          (camera scene) (lights scene) in
      let! self := get_this in
      let! uniform := non_null "uniform_buffer" (uniform_buffer self) in
      on_core (queue_writeBuffer uniform 0 data);;
      (* Setup bindgroup *)
      let! group_layout :=
        on_core (pipeline_getBindGroupLayout (gpu_pipeline self) 0) in
      let! sampler := on_core device_createSampler in
      let! view_diffuse := on_core (texture_createView diffuse) in
      let! view_specular := on_core (texture_createView specular) in
      let! view_normal := on_core (texture_createView normal) in
      let! transforms := non_null "model_transforms" (model_transforms self) in
      let bindgroup_descriptor :=
        {| layout := group_layout;
           entries :=
             [ (0, buffer_binding uniform 0 (buffer_size uniform));
               (1, sampler_binding sampler);
               (2, view_binding view_diffuse);
               (3, view_binding view_specular);
               (4, view_binding view_normal);
               (5, buffer_binding transforms 0 (buffer_size transforms)) ] |} in
      let! group := on_core (device_createBindGroup bindgroup_descriptor) in
      on_core (emit (setBindGroup render_pass 0 group));;
      (* Render each object *)
      let! model_data :=
        on_core (await await_get_model_data (get_model_data object_0)) in
      on_core (emit (setVertexBuffer render_pass 0 (vertex_data_gpu model_data)));;
      on_core (emit (setIndexBuffer render_pass (indices_gpu model_data) "uint32"));;
      on_core (emit (drawIndexed render_pass (index_count model_data)
                       (length relevant_scene_objects) 0 0 0));;
      on_core (emit (end_pass render_pass))
  | _, _, _ => ret tt
  end.

(** A sequence of frames on one pipeline instance; [scenes] holds the scene
    as each call finds it. A rejected frame leaves its effects behind, and
    the next frame starts from them. *)
Fixpoint render_frames (scenes : list Scene) (st : RenderState) : RenderState :=
  match scenes with
  | [] => st
  | scene :: later => render_frames later (snd (render scene st))
  end.

(** The events a call added to the trace. *)
Definition frame_of (st st' : RenderState) : list Event :=
  drop (length (trace (core st))) (trace (core st')).

(** [this.model_transforms?.destroy()], as events. *)
Definition destroy_old (old : option GPUBuffer) : list Event :=
  match old with
  | Some buffer => [GPU (destroy buffer)]
  | None => []
  end.

(** The event neither creates nor destroys a buffer. *)
Definition keeps_buffers (e : Event) : Prop :=
  is_createBuffer e = false ∧ is_destroy e = false.

(** The texture resolver settles all three textures of [object_0]. *)
Definition resolves_textures (scene : Scene) (object_0 : SceneObject) : Prop :=
  is_Some (load_texture scene (texture_diffuse object_0))
  ∧ is_Some (load_texture scene (texture_specular object_0))
  ∧ is_Some (load_texture scene (texture_normal object_0)).

(** The call is not skipped and gets past the texture resolution, to the
    grow-or-write step. *)
Definition reaches_upload (pipeline : Default3DPipeLine) (scene : Scene) : Prop :=
  ∃ object_0 rest,
    relevant_objects pipeline scene = object_0 :: rest
    ∧ is_Some (texture_view scene)
    ∧ is_Some (depth_texture_view scene)
    ∧ resolves_textures scene object_0.

(** The device holds the buffer, not destroyed and writable by the queue. *)
Definition live (core : SystemCore) (buffer : GPUBuffer) : Prop :=
  buffer_id buffer < next_handle core
  ∧ N.land (buffer_usage buffer) GPUBufferUsage.COPY_DST ≠ 0%N
  ∧ ∃ data,
      memory core !! buffer_id buffer
      = Some {| contents := data; destroyed := false |}.

(** The buffers the pipeline refers to are live, and they are two buffers. *)
Definition owns_its_buffers (st : RenderState) : Prop :=
  (∀ uniform, uniform_buffer (this st) = Some uniform → live (core st) uniform)
  ∧ ∀ buffer,
      model_transforms (this st) = Some buffer →
      live (core st) buffer
      ∧ ∀ uniform, uniform_buffer (this st) = Some uniform →
                   buffer_id uniform ≠ buffer_id buffer.

(** The call grows the transform buffer: it reaches the grow-or-write step
    and needs more than the current capacity. *)
Definition grows (scene : Scene) (st : RenderState) : Prop :=
  reaches_upload (this st) scene
  ∧ current_model_transforms_size (this st)
    < needed_model_transform_size (relevant_objects (this st) scene).

(** The ordering that would hold if the texture resolver were awaited before
    anything is recorded: no command of the frame comes before a suspension
    on the texture resolver. *)
Definition commands_follow_texture_awaits (frame : list Event) : Prop :=
  ∀ i j command ref,
    frame !! i = Some (GPU command) →
    frame !! j = Some (Await (await_load_texture ref)) →
    j < i.

(** The size the call asks of the transform buffer: the needed size when it
    reaches the grow-or-write step, nothing otherwise. *)
Definition upload_demand (pipeline : Default3DPipeLine) (scene : Scene) : nat :=
  match relevant_objects pipeline scene,
        texture_view scene, depth_texture_view scene with
  | object_0 :: rest, Some _, Some _ =>
      match load_texture scene (texture_diffuse object_0),
            load_texture scene (texture_specular object_0),
            load_texture scene (texture_normal object_0) with
      | Some _, Some _, Some _ =>
          needed_model_transform_size (object_0 :: rest)
      | _, _, _ => 0
      end
  | _, _, _ => 0
  end.

End Pipeline.

(** The first of the three texture promises of [object_0], in the order
    [render] awaits them, that is rejected. *)
Definition first_rejected_texture (scene : Scene) (object_0 : SceneObject)
    : option TextureRef :=
  find (λ ref, bool_decide (load_texture scene ref = None))
    [texture_diffuse object_0; texture_specular object_0;
     texture_normal object_0].

(** *** Reading a frame *)

Definition is_beginRenderPass (e : Event) : bool :=
  match e with GPU (beginRenderPass _ _ _) => true | _ => false end.

Definition is_end_pass (e : Event) : bool :=
  match e with GPU (end_pass _) => true | _ => false end.

Definition is_drawIndexed (e : Event) : bool :=
  match e with GPU (drawIndexed _ _ _ _ _ _) => true | _ => false end.

(** How many events of the frame satisfy [p]. *)
Definition count_events (p : Event → bool) (frame : list Event) : nat :=
  length (List.filter p frame).

(** The render pass a command is encoded into. *)
Definition pass_of (e : Event) : option Handle :=
  match e with
  | GPU (beginRenderPass _ _ render_pass)
  | GPU (setPipeline render_pass _)
  | GPU (setBindGroup render_pass _ _)
  | GPU (setVertexBuffer render_pass _ _)
  | GPU (setIndexBuffer render_pass _ _)
  | GPU (drawIndexed render_pass _ _ _ _ _)
  | GPU (end_pass render_pass) => Some render_pass
  | _ => None
  end.

(** The resource is of the kind the layout entry declares. *)
Definition of_kind (entry : GPUBindGroupLayoutEntry)
    (resource : GPUBindingResource) : Prop :=
  match binding_layout entry, resource with
  | buffer_layout _, buffer_binding _ _ _
  | sampler_layout, sampler_binding _
  | texture_layout, view_binding _ => True
  | _, _ => False
  end.

(** The usage flag is among those of the buffer. *)
Definition has_usage (flag : N) (buffer : GPUBuffer) : Prop :=
  N.land (buffer_usage buffer) flag ≠ 0%N.

(** The buffers as [construct_pipeline] and [render] make them: a uniform
    buffer of the size of the uniform layout, and a transform buffer, if
    any, of whole matrices. *)
Definition buffers_as_constructed (pipeline : Default3DPipeLine) : Prop :=
  (∃ uniform,
     uniform_buffer pipeline = Some uniform
     ∧ buffer_size uniform = 4 * DEFAULT_3D_UNIFORM_DATA_SIZE_FLOAT
     ∧ buffer_usage uniform
       = N.lor GPUBufferUsage.UNIFORM GPUBufferUsage.COPY_DST)
  ∧ ∀ buffer,
      model_transforms pipeline = Some buffer →
      buffer_usage buffer
      = N.lor GPUBufferUsage.STORAGE GPUBufferUsage.COPY_DST
      ∧ ∃ n, buffer_size buffer = 64 * S n.

(** ** A worked scene

    Three objects, two of them routed to the pipeline, and two lights; the
    key derivation used to run it prefixes the pipeline label. *)

Definition example_pipeline_key (shader_path : string) : string :=
  String.append "default_3d:" shader_path.

Definition translation (x y z : number) : mat4 :=
  list_to_vec [1; 0; 0; 0;  0; 1; 0; 0;  0; 0; 1; 0;  x; y; z; 1]%float.

Definition example_camera : Camera :=
  {| get_view_matrix := translation 0 0 (-5);
     get_projection_matrix := translation 0 0 0 |}.

Definition example_mesh (vertices indices : Handle) (count : nat) : ModelData :=
  {| vertex_data_gpu := {| buffer_id := vertices; buffer_size := 48 * count;
                           buffer_usage := 0x28 |};
     indices_gpu := {| buffer_id := indices; buffer_size := 4 * count;
                       buffer_usage := 0x18 |};
     index_count := count |}.

Definition crate : SceneObject :=
  {| pipeline_key := example_pipeline_key "shaders/default.wgsl";
     has_texture_diffuse := true; has_texture_specular := false;
     has_texture_normal := true;
     texture_diffuse := Some "crate.png"; texture_specular := None;
     texture_normal := Some "crate_n.png";
     get_model_matrix := translation 1 0 0;
     get_model_data := Some (example_mesh 100 101 36) |}.

Definition barrel : SceneObject :=
  {| pipeline_key := example_pipeline_key "shaders/default.wgsl";
     has_texture_diffuse := false; has_texture_specular := true;
     has_texture_normal := false;
     texture_diffuse := None; texture_specular := Some "barrel_s.png";
     texture_normal := None;
     get_model_matrix := translation 0 2 0;
     get_model_data := Some (example_mesh 102 103 96) |}.

Definition sky : SceneObject :=
  {| pipeline_key := "skybox:shaders/sky.wgsl";
     has_texture_diffuse := true; has_texture_specular := false;
     has_texture_normal := false;
     texture_diffuse := Some "sky.png"; texture_specular := None;
     texture_normal := None;
     get_model_matrix := translation 0 0 0;
     get_model_data := Some (example_mesh 104 105 6) |}.

Definition lamp : Light :=
  {| position := [0; 4; 0]%float; color := [1; 1; 1; 2]%float |}.

Definition sun : Light :=
  {| position := [10; 50; 10]%float; color := [1; 0.5; 0.25; 8]%float |}.

(** The texture resolver of the example: a texture per name, and a
    placeholder for an object without one. *)
Definition example_load_texture (ref : TextureRef) : option GPUTexture :=
  match ref with
  | Some name => Some (String.length name)
  | None => Some 0
  end.

Definition example_scene (objects : list SceneObject) (lights : list Light)
    : Scene :=
  {| get_shader := λ path, Some "@vertex fn main() {}";
     presentation_format := "bgra8unorm";
     load_texture := example_load_texture;
     texture_view := Some 50;
     depth_texture_view := Some 51;
     objects := objects;
     lights := lights;
     camera := example_camera |}.

Definition scene_of_three : Scene :=
  example_scene [crate; sky; barrel] [lamp; sun].

Definition scene_of_one : Scene := example_scene [sky; barrel] [lamp].

Definition scene_of_others : Scene := example_scene [sky] [lamp; sun].

(** Eleven lights, one more than the uniform layout has records for. *)
Definition crowded_scene : Scene :=
  example_scene [crate; barrel] (replicate 11 lamp).

Definition fresh_core : SystemCore := {| next_handle := 0; trace := [] |}.

(** The pipeline as [construct_pipeline] leaves it on a fresh device. *)
Definition example_pipeline : Default3DPipeLine :=
  {| shader_path := "shaders/default.wgsl";
     gpu_pipeline := 3;
     model_transforms := None;
     uniform_buffer :=
       Some {| buffer_id := 4; buffer_size := 464; buffer_usage := 0x48 |} |}.

Definition constructed : RenderState :=
  {| this := example_pipeline;
     core := snd (construct_pipeline "shaders/default.wgsl" scene_of_three
                    fresh_core) |}.

(** After a first frame on the scene of three. *)
Definition after_first_frame : RenderState :=
  snd (render example_pipeline_key scene_of_three constructed).

(** The transform buffer that first frame allocates. *)
Definition first_transform_buffer : GPUBuffer :=
  {| buffer_id := 6; buffer_size := 128; buffer_usage := 0x88 |}.

(** A second pipeline instance, constructed later on the same device. *)
Definition second_pipeline : Default3DPipeLine :=
  {| shader_path := "shaders/default.wgsl";
     gpu_pipeline := 16;
     model_transforms := None;
     uniform_buffer :=
       Some {| buffer_id := 17; buffer_size := 464; buffer_usage := 0x48 |} |}.

(** The second pipeline on the device, beside the first and its buffers. *)
Definition second_constructed : RenderState :=
  {| this := second_pipeline;
     core := snd (construct_pipeline "shaders/default.wgsl" scene_of_one
                    (core after_first_frame)) |}.

(** A scene whose shader manager has no shader to give. *)
Definition scene_without_shader : Scene :=
  {| get_shader := λ path, None;
     presentation_format := "bgra8unorm";
     load_texture := example_load_texture;
     texture_view := Some 50;
     depth_texture_view := Some 51;
     objects := [crate];
     lights := [lamp];
     camera := example_camera |}.

Definition scene_of_barrel : Scene := example_scene [barrel] [lamp].

Definition scene_of_five : Scene := example_scene (replicate 5 crate) [lamp].

(** The bind group of the first frame. *)
Definition example_bind_group : GPUBindGroupDescriptor :=
  {| layout := 7;
     entries :=
       [(0, buffer_binding
              {| buffer_id := 4; buffer_size := 464; buffer_usage := 0x48 |}
              0 464);
        (1, sampler_binding 8);
        (2, view_binding 9);
        (3, view_binding 10);
        (4, view_binding 11);
        (5, buffer_binding first_transform_buffer 0 128)] |}.

(** A scene whose texture resolver has no normal map for the crate. *)
Definition scene_with_missing_texture : Scene :=
  {| get_shader := λ path, Some "@vertex fn main() {}";
     presentation_format := "bgra8unorm";
     load_texture :=
       λ ref, if decide (ref = Some "crate_n.png") then None
              else example_load_texture ref;
     texture_view := Some 50;
     depth_texture_view := Some 51;
     objects := [crate; barrel];
     lights := [lamp];
     camera := example_camera |}.

(** ** Facts about the packing *)

Lemma length_Float32Array xs : length (Float32Array xs) = length xs.
Proof. apply length_map. Qed.

Lemma Float32Array_take n xs : take n (Float32Array xs) = Float32Array (take n xs).
Proof. unfold Float32Array. by rewrite <- fmap_take. Qed.

Lemma Float32Array_drop n xs : drop n (Float32Array xs) = Float32Array (drop n xs).
Proof. unfold Float32Array. by rewrite <- fmap_drop. Qed.

Lemma length_spread (m : mat4) : length (spread m) = 16.
Proof. apply length_vec_to_list. Qed.

(** The reduce accumulates the records left to right. *)
Lemma fold_left_concat_from (lights : list Light) (acc : list number) :
  fold_left (λ acc light, acc ++ light_record light) lights acc
  = acc ++ concat (map light_record lights).
Proof.
  revert acc. induction lights as [|l ls IH]; intros acc; simpl.
  - by rewrite app_nil_r.
  - by rewrite IH, <- app_assoc.
Qed.

Lemma lights_data_concat lights :
  lights_data lights = concat (map light_record lights).
Proof. unfold lights_data. by rewrite fold_left_concat_from. Qed.

Definition light_shaped (light : Light) : Prop :=
  length (position light) = 3 ∧ length (color light) = 4.

Lemma length_light_record light :
  length (light_record light) = length (position light) + 1 + length (color light).
Proof. unfold light_record. rewrite !length_app. simpl. lia. Qed.

Lemma length_lights_data_shaped lights :
  Forall light_shaped lights →
  length (lights_data lights) = 8 * length lights.
Proof.
  rewrite lights_data_concat. induction 1 as [|l ls [Hp Hc] _ IH]; simpl; [done|].
  rewrite length_app, length_light_record, IH, Hp, Hc. lia.
Qed.

(** The record of the [i]-th light starts [8 * i] elements into the data. *)
Lemma lights_data_record lights i light :
  Forall light_shaped lights →
  lights !! i = Some light →
  take 8 (drop (8 * i) (lights_data lights)) = light_record light.
Proof.
  rewrite lights_data_concat. intros Hall. revert i.
  induction Hall as [|l ls [Hp Hc] _ IH]; intros i Hi; [done|].
  assert (Hl : length (light_record l) = 8)
    by (rewrite length_light_record, Hp, Hc; lia).
  destruct i as [|i]; simpl in Hi.
  - injection Hi as ->. simpl concat. rewrite Nat.mul_0_r, drop_0.
    by rewrite take_app_length'.
  - simpl concat. rewrite drop_app_ge by lia.
    replace (8 * S i - length (light_record l)) with (8 * i) by lia.
    by apply IH.
Qed.

Lemma length_uniform_fields d s n camera lights :
  length (uniform_fields d s n camera lights) = 36 + length (lights_data lights).
Proof.
  unfold uniform_fields. rewrite !length_app, !length_spread. simpl. lia.
Qed.

Lemma uniform_fields_split d s n camera lights :
  uniform_fields d s n camera lights
  = ([d; s; n; number_of_nat (length lights)]
     ++ spread (get_view_matrix camera)
     ++ spread (get_projection_matrix camera))
    ++ lights_data lights.
Proof. unfold uniform_fields. by rewrite <- !app_assoc. Qed.

Lemma drop_36_uniform_fields d s n camera lights :
  drop 36 (uniform_fields d s n camera lights) = lights_data lights.
Proof.
  rewrite uniform_fields_split. apply drop_app_length'.
  rewrite !length_app, !length_spread. simpl. lia.
Qed.


Lemma length_uniform_data d s n camera lights :
  length (uniform_data d s n camera lights)
  = 36 + length (concat (map light_record lights)).
Proof.
  unfold uniform_data.
  by rewrite length_Float32Array, length_uniform_fields, lights_data_concat.
Qed.

Lemma length_uniform_data_shaped d s n camera lights :
  Forall light_shaped lights →
  length (uniform_data d s n camera lights) = 36 + 8 * length lights.
Proof.
  intros Hshaped. unfold uniform_data.
  rewrite length_Float32Array, length_uniform_fields.
  by rewrite length_lights_data_shaped.
Qed.


(** C1, as amended: the packed sequence has 36 + 8 n floats for n lights
    (each a 3-float position and a 4-float color), so it has the 116 floats
    of the uniform layout exactly when there are 10 lights; nothing pads the
    unused light slots. The field order is fixed: the diffuse, specular and
    normal flags, the light count, the view matrix (16 floats), the
    projection matrix (16 floats), then one record of 8 floats per light in
    list order: the position, a 0.0 in the reserved 4th channel, the color
    with the intensity in its 4th channel. The packing is a function of its
    inputs, so fixed inputs always give the same sequence. *)
Theorem uniform_data_layout d s n camera lights :
  Forall light_shaped lights →
  let data := uniform_data d s n camera lights in
  length data = 36 + 8 * length lights
  ∧ (length data = DEFAULT_3D_UNIFORM_DATA_SIZE_FLOAT ↔ length lights = 10)
  ∧ take 4 data = Float32Array [d; s; n; number_of_nat (length lights)]
  ∧ take 16 (drop 4 data) = Float32Array (spread (get_view_matrix camera))
  ∧ take 16 (drop 20 data)
    = Float32Array (spread (get_projection_matrix camera))
  ∧ ∀ i light,
      lights !! i = Some light →
      take 8 (drop (36 + 8 * i) data)
      = Float32Array (position light ++ [0%float] ++ color light).
Proof.
  intros Hshaped data.
  assert (Hlen : length data = 36 + 8 * length lights)
    by by apply length_uniform_data_shaped.
  split; [done|]. split.
  { rewrite Hlen. unfold DEFAULT_3D_UNIFORM_DATA_SIZE_FLOAT. lia. }
  unfold data, uniform_data.
  rewrite !Float32Array_drop, !Float32Array_take. unfold uniform_fields.
  split; [done|]. split.
  { f_equal. cbn [app skipn]. apply take_app_length'. by rewrite length_spread. }
  split.
  { f_equal. rewrite <- (drop_drop _ 16 4). cbn [app skipn].
    rewrite drop_0, drop_app_length' by (by rewrite length_spread).
    apply take_app_length'. by rewrite length_spread. }
  intros i light Hi. rewrite Float32Array_drop, Float32Array_take. f_equal.
  fold (uniform_fields d s n camera lights).
  rewrite <- (drop_drop _ (8 * i) 36), drop_36_uniform_fields.
  by apply lights_data_record.
Qed.


(** The three flags head the packed data. *)
Lemma uniform_data_flags (d s n : bool) camera lights :
  take 3 (uniform_data (flag d) (flag s) (flag n) camera lights)
  = [if d then 1%float else 0%float; if s then 1%float else 0%float;
     if n then 1%float else 0%float].
Proof. by destruct d, s, n. Qed.

(** *** The light count as a number *)




(** ** Facts about the transform data *)

Lemma length_flat_map_spread (l : list SceneObject) :
  length (flat_map (λ obj, spread (get_model_matrix obj)) l) = 16 * length l.
Proof.
  induction l as [|o l IH]; [done|].
  cbn [flat_map]. rewrite length_app, length_spread, IH. simpl. lia.
Qed.

Lemma length_model_transforms_data l :
  length (model_transforms_data l) = 16 * length l.
Proof.
  unfold model_transforms_data.
  by rewrite length_Float32Array, length_flat_map_spread.
Qed.

(** The packed data fills exactly the size [render] computes. *)
Lemma byteLength_model_transforms_data l :
  byteLength (model_transforms_data l) = needed_model_transform_size l.
Proof.
  unfold byteLength, needed_model_transform_size.
  rewrite length_model_transforms_data. lia.
Qed.

Lemma model_transforms_data_matrix l i o :
  l !! i = Some o →
  take 16 (drop (16 * i) (model_transforms_data l))
  = Float32Array (spread (get_model_matrix o)).
Proof.
  unfold model_transforms_data.
  rewrite Float32Array_drop, Float32Array_take. intros Hi. f_equal.
  revert i Hi. induction l as [|o' l IH]; intros i Hi; [done|].
  cbn [flat_map]. destruct i as [|i]; simpl in Hi.
  - injection Hi as ->. rewrite Nat.mul_0_r, drop_0.
    apply take_app_length'. by rewrite length_spread.
  - rewrite drop_app_ge by (rewrite length_spread; lia).
    rewrite length_spread. replace (16 * S i - 16) with (16 * i) by lia.
    by apply IH.
Qed.

(** An entry of the packed transform data: entry [j] of the matrix of the
    [i]-th object, in single precision. *)
Lemma model_transforms_data_entry l i object j x :
  l !! i = Some object →
  vec_to_list (get_model_matrix object) !! j = Some x →
  model_transforms_data l !! (16 * i + j) = Some (fround x).
Proof.
  intros Hi Hj.
  assert (Hlt : j < 16).
  { apply lookup_lt_Some in Hj. by rewrite length_vec_to_list in Hj. }
  rewrite <- lookup_drop, <- (lookup_take_lt _ 16) by done.
  rewrite (model_transforms_data_matrix l i object Hi).
  unfold Float32Array, spread. by rewrite list_lookup_fmap, Hj.
Qed.

(** Among the sublists whose elements all satisfy [P], the filtered list is
    the greatest. *)
Lemma sublist_filter_greatest {A} (P : A → Prop) `{!∀ x, Decision (P x)}
    (k l : list A) :
  k `sublist_of` l → Forall P k → k `sublist_of` filter P l.
Proof.
  induction 1 as [|x k l _ IH|x k l _ IH]; intros HP.
  - done.
  - apply Forall_cons in HP as [Hx HP].
    rewrite filter_cons_True by done. by apply sublist_skip, IH.
  - destruct (decide (P x)).
    + rewrite filter_cons_True by done. by apply sublist_cons, IH.
    + rewrite filter_cons_False by done. by apply IH.
Qed.

Lemma needed_size_positive object_0 rest :
  64 ≤ needed_model_transform_size (object_0 :: rest).
Proof. unfold needed_model_transform_size. simpl. lia. Qed.

(** ** Facts about the device *)

Lemma execute_all_app store events later :
  execute_all store (events ++ later)
  = execute_all (execute_all store events) later.
Proof. apply foldl_app. Qed.

Lemma execute_all_singleton store e : execute_all store [e] = execute store e.
Proof. reflexivity. Qed.

Lemma lookup_execute_untouched store e id :
  ¬ touches e id → execute store e !! id = store !! id.
Proof.
  destruct e as [[]|]; simpl; try done; intros Hne.
  - unfold store_create. by rewrite lookup_insert_ne.
  - unfold store_destroy. by rewrite lookup_alter_ne.
  - case_match; [|done]. unfold store_write. by rewrite lookup_alter_ne.
Qed.

Lemma lookup_execute_all_untouched store events id :
  Forall (λ e, ¬ touches e id) events →
  execute_all store events !! id = store !! id.
Proof.
  intros Hall. revert store.
  induction Hall as [|e events He _ IH]; intros store; [done|].
  simpl. rewrite IH. by apply lookup_execute_untouched.
Qed.

(** A write within the bounds of a live buffer with [COPY_DST] usage
    replaces the written range and nothing else. *)
Lemma lookup_execute_writeBuffer store buffer bufferOffset data old :
  store !! buffer_id buffer = Some {| contents := old; destroyed := false |} →
  N.land (buffer_usage buffer) GPUBufferUsage.COPY_DST ≠ 0%N →
  bufferOffset mod 4 = 0 →
  bufferOffset + byteLength data ≤ buffer_size buffer →
  execute store (GPU (writeBuffer buffer bufferOffset data)) !! buffer_id buffer
  = Some {| contents := written bufferOffset data old; destroyed := false |}.
Proof.
  intros Hlive Husage Haligned Hfits. simpl.
  assert (write_valid store buffer bufferOffset data = true) as ->.
  { unfold write_valid. rewrite Hlive. cbn [destroyed].
    apply N.eqb_neq in Husage. apply Nat.eqb_eq in Haligned.
    apply Nat.leb_le in Hfits. by rewrite Husage, Haligned, Hfits. }
  unfold store_write. by rewrite lookup_alter_eq, Hlive.
Qed.

(** A live buffer stays live as long as it is not destroyed. *)
Lemma alive_execute store e id data :
  store !! id = Some {| contents := data; destroyed := false |} →
  (∀ buffer, e = GPU (destroy buffer) → buffer_id buffer ≠ id) →
  ∃ data',
    execute store e !! id = Some {| contents := data'; destroyed := false |}.
Proof.
  intros Hlive Hkept. destruct e as [[]|]; simpl; eauto.
  - unfold store_create. destruct (decide (buffer_id buffer = id)) as [<-|].
    + rewrite lookup_insert_eq. eauto.
    + rewrite lookup_insert_ne by done. eauto.
  - unfold store_destroy. rewrite lookup_alter_ne; eauto.
  - case_match; eauto. unfold store_write.
    destruct (decide (buffer_id buffer = id)) as [<-|].
    + rewrite lookup_alter_eq, Hlive. simpl. eauto.
    + rewrite lookup_alter_ne by done. eauto.
Qed.

Lemma alive_execute_all store events id data :
  store !! id = Some {| contents := data; destroyed := false |} →
  Forall (λ e, ∀ buffer, e = GPU (destroy buffer) → buffer_id buffer ≠ id)
    events →
  ∃ data',
    execute_all store events !! id
    = Some {| contents := data'; destroyed := false |}.
Proof.
  intros Hlive Hkept. revert store data Hlive.
  induction Hkept as [|e events He _ IH]; intros store data Hlive; [eauto|].
  destruct (alive_execute store e id data Hlive He) as [data' Hlive'].
  simpl. by eapply IH.
Qed.

Lemma keeps_buffers_not_destroy e id :
  keeps_buffers e → ∀ buffer, e = GPU (destroy buffer) → buffer_id buffer ≠ id.
Proof. intros [_ Hkeeps] buffer ->. discriminate Hkeeps. Qed.

Lemma written_at_0 data old : written 0 data old = data ++ drop (length data) old.
Proof. reflexivity. Qed.

(** ** Running [render] symbolically *)

Lemma frame_of_same st : frame_of st st = [].
Proof. unfold frame_of. apply drop_all. Qed.

Ltac destruct_scrutinee :=
  match goal with
  | |- context [match ?x with _ => _ end] =>
      lazymatch x with
      | context [match _ with _ => _ end] => fail
      | _ => destruct x eqn:?
      end
  end.

Ltac eval_render :=
  lazy beta iota zeta delta
    [render upload_model_transforms bind ret throw on_core get_this
     set_model_transforms with_model_transforms non_null queue_writeBuffer
     buffer_destroy create_gpu_buffer command_encoder_beginRenderPass
     device_createSampler texture_createView pipeline_getBindGroupLayout
     device_createBindGroup emit
     new_object await record allocate_handle trace next_handle core this
     shader_path gpu_pipeline model_transforms uniform_buffer
     fst snd frame_of].

(** Hypotheses that fix the value of one scrutinee twice are merged; the
    goal is discharged when they disagree. *)
Ltac settle :=
  simplify_eq;
  repeat match goal with
         | H : is_Some None |- _ => by destruct H
         | H : is_Some ?t, E : ?t = None |- _ => rewrite E in H; by destruct H
         end.

(** Every path through [render], with the frame it leaves in the trace. *)
Ltac render_paths st :=
  destruct st as [[? ? ? ?] [? ?]];
  cbn [this core trace next_handle shader_path gpu_pipeline model_transforms
       uniform_buffer] in *;
  eval_render; repeat (destruct_scrutinee; eval_render);
  rewrite <- ?app_assoc; rewrite ?drop_app_length, ?drop_all; simpl app.

(** The same, with the hypotheses on the scene and the pipeline brought in
    at each branch, so that only the paths they allow remain. *)
Ltac run_render st :=
  destruct st as [[? ? ? ?] [? ?]];
  cbn [this core trace next_handle shader_path gpu_pipeline model_transforms
       uniform_buffer] in *;
  eval_render; repeat (destruct_scrutinee; settle; eval_render);
  rewrite <- ?app_assoc; rewrite ?drop_app_length, ?drop_all; simpl app;
  (* the write branch taken without a buffer: its test is false *)
  try match goal with H : decide _ = right _ |- _ => discriminate H end.

(** A membership in a frame: either the event is there, or it is not. *)
Ltac in_frame :=
  repeat first [apply list_elem_of_here | apply list_elem_of_further].

Ltac frame_cases H :=
  repeat (apply elem_of_cons in H as [H|H]; [try discriminate H; simplify_eq|]);
  try (by apply elem_of_nil in H).

Section PipelineFacts.

Context (get_pipeline_key : string → string).

#[local] Abbreviation render := (render get_pipeline_key).
#[local] Abbreviation relevant_objects := (relevant_objects get_pipeline_key).
#[local] Abbreviation reaches_upload := (reaches_upload get_pipeline_key).
#[local] Abbreviation render_frames := (render_frames get_pipeline_key).
#[local] Abbreviation grows := (grows get_pipeline_key).

(** C6: when no object is routed to this pipeline, or the color target view
    or the depth target view is missing, [render] returns at once: it
    fulfils, it leaves the pipeline and the device as they were, and the
    frame holds no event at all. *)
Theorem render_skip_is_noop scene st :
  relevant_objects (this st) scene = []
  ∨ texture_view scene = None
  ∨ depth_texture_view scene = None →
  render scene st = (Fulfilled tt, st)
  ∧ frame_of st (snd (render scene st)) = [].
Proof.
  intros Hskip.
  assert (Hrun : render scene st = (Fulfilled tt, st)).
  { unfold render, bind, get_this, ret.
    destruct Hskip as [-> | [-> | ->]]; [done | |].
    - by destruct (relevant_objects (this st) scene).
    - by destruct (relevant_objects (this st) scene), (texture_view scene). }
  split; [done|]. rewrite Hrun. apply frame_of_same.
Qed.

(** C2, as amended: a call that is not skipped begins the render pass and
    binds the pipeline first, then suspends on the texture resolver; these
    two are the only commands recorded before the suspension. Every other
    command of the frame (buffer creation, destruction and writes, sampler,
    views, bind group, vertex and index buffers, draw, end of pass) comes
    after the three texture awaits, and only if all three resolved. *)
Theorem texture_awaits_follow_pass_begin scene st object_0 rest view depth_view :
  relevant_objects (this st) scene = object_0 :: rest →
  texture_view scene = Some view →
  depth_texture_view scene = Some depth_view →
  let frame := frame_of st (snd (render scene st)) in
  let render_pass := next_handle (core st) in
  take 3 frame =
    [GPU (beginRenderPass view depth_view render_pass);
     GPU (setPipeline render_pass (gpu_pipeline (this st)));
     Await (await_load_texture (texture_diffuse object_0))]
  ∧ ∀ i command,
      2 ≤ i → frame !! i = Some (GPU command) →
      5 ≤ i
      ∧ take 3 (drop 2 frame) =
          [Await (await_load_texture (texture_diffuse object_0));
           Await (await_load_texture (texture_specular object_0));
           Await (await_load_texture (texture_normal object_0))]
      ∧ resolves_textures scene object_0.
Proof.
  intros Hrel Hview Hdepth. run_render st.
  all: split; [reflexivity|]; intros i command Hi Hlook.
  all: do 5 (destruct i as [|i]; [first [lia | discriminate Hlook]|]).
  all: try discriminate Hlook.
  all: split; [lia|]; split; [reflexivity|]; unfold resolves_textures; eauto.
Qed.

(** C9: the uses of [this.model_transforms!] never meet [undefined]. A
    pipeline without a transform buffer has a current capacity of 0, the
    size needed by a non-empty selection is at least 64 bytes, so the buffer
    is allocated before it is written or bound; [render] never throws on
    that member, whatever the pipeline state and the scene. *)
Theorem model_transforms_never_undefined scene st :
  (∀ object_0 rest,
     model_transforms (this st) = None →
     relevant_objects (this st) scene = object_0 :: rest →
     current_model_transforms_size (this st) = 0
     ∧ 64 ≤ needed_model_transform_size (relevant_objects (this st) scene)
     ∧ current_model_transforms_size (this st)
       < needed_model_transform_size (relevant_objects (this st) scene))
  ∧ fst (render scene st) ≠ Rejected (TypeError "model_transforms").
Proof.
  split.
  - intros object_0 rest Hnone ->. unfold current_model_transforms_size.
    rewrite Hnone. pose proof (needed_size_positive object_0 rest). lia.
  - (* Every path ends in another completion. The one path that would
       throw is the write branch taken without a buffer; its test,
       [¬ 0 < needed] for a non-empty selection, is false by computation. *)
    render_paths st; discriminate.
Qed.

Lemma render_frames_app earlier later st :
  render_frames (earlier ++ later) st
  = render_frames later (render_frames earlier st).
Proof.
  revert st. induction earlier as [|scene earlier IH]; intros st; [done|].
  simpl. apply IH.
Qed.

(** One call never lowers the capacity of the transform buffer. *)
Lemma render_capacity_monotone scene st :
  current_model_transforms_size (this st)
  ≤ current_model_transforms_size (this (snd (render scene st))).
Proof.
  render_paths st; try reflexivity.
  all: unfold current_model_transforms_size at 2; cbn [model_transforms buffer_size].
  all: rewrite byteLength_model_transforms_data; lia.
Qed.

Lemma render_frames_capacity_monotone scenes st :
  current_model_transforms_size (this st)
  ≤ current_model_transforms_size (this (render_frames scenes st)).
Proof.
  revert st. induction scenes as [|scene scenes IH]; intros st; [done|].
  simpl. etrans; [apply (render_capacity_monotone scene)|apply IH].
Qed.

Ltac all_keep_buffers := cbn [app]; repeat constructor.

Lemma grows_or_not scene st : grows scene st ∨ ¬ grows scene st.
Proof.
  unfold grows, reaches_upload, resolves_textures.
  destruct (decide (current_model_transforms_size (this st)
                    < needed_model_transform_size
                        (relevant_objects (this st) scene)));
    [|right; tauto].
  destruct (relevant_objects (this st) scene) as [|object_0 rest] eqn:Hrel.
  { right. intros [(? & ? & ? & _) _]. done. }
  destruct (texture_view scene) eqn:?, (depth_texture_view scene) eqn:?,
    (load_texture scene (texture_diffuse object_0)) eqn:?,
    (load_texture scene (texture_specular object_0)) eqn:?,
    (load_texture scene (texture_normal object_0)) eqn:?.
  1: left; split; [|done]; eexists _, _; split; [done|]; eauto 10.
  all: right; intros [(? & ? & ? & ? & ? & ? & ? & ?) _]; settle.
Qed.

Lemma render_grows scene st :
  grows scene st →
  let st' := snd (render scene st) in
  ∃ buffer before after,
    model_transforms (this st') = Some buffer
    ∧ buffer_size buffer
      = needed_model_transform_size (relevant_objects (this st) scene)
    ∧ frame_of st st'
      = before ++ destroy_old (model_transforms (this st))
        ++ [GPU (createBuffer buffer
                   (model_transforms_data (relevant_objects (this st) scene)))]
        ++ after
    ∧ Forall keeps_buffers (before ++ after).
Proof.
  unfold grows, reaches_upload, resolves_textures.
  intros [(? & ? & ? & ? & ? & ? & ? & ?) ?]. cbv zeta.
  run_render st; try contradiction.
  all: eexists _, (_ :: _ :: _ :: _ :: [_]), _.
  all: split; [reflexivity|]; split; [apply byteLength_model_transforms_data|].
  all: split; [reflexivity|all_keep_buffers].
Qed.

Lemma render_keeps scene st :
  ¬ grows scene st →
  let st' := snd (render scene st) in
  model_transforms (this st') = model_transforms (this st)
  ∧ Forall keeps_buffers (frame_of st st').
Proof.
  unfold grows, reaches_upload, resolves_textures. intros Hnot. cbv zeta.
  render_paths st.
  all: try (split; [reflexivity|all_keep_buffers]; fail).
  all: exfalso; apply Hnot; split; [by eauto 15|assumption].
Qed.

(** A call only appends to the trace, and the device goes on from the
    memory it had. *)
Lemma render_extends_trace scene st :
  trace (core (snd (render scene st)))
  = trace (core st) ++ frame_of st (snd (render scene st)).
Proof. render_paths st; by rewrite ?app_nil_r. Qed.

Lemma memory_after_render scene st :
  memory (core (snd (render scene st)))
  = execute_all (memory (core st)) (frame_of st (snd (render scene st))).
Proof. unfold memory. by rewrite render_extends_trace, execute_all_app. Qed.

(** The frame of a call that writes the transform buffer in place: nothing
    before the write acts on a buffer, and after it only the uniform buffer
    is acted on. *)
Lemma render_writes scene st buffer :
  reaches_upload (this st) scene →
  model_transforms (this st) = Some buffer →
  needed_model_transform_size (relevant_objects (this st) scene)
  ≤ buffer_size buffer →
  let st' := snd (render scene st) in
  ∃ before after,
    frame_of st st'
    = before
      ++ [GPU (writeBuffer buffer 0
                 (model_transforms_data (relevant_objects (this st) scene)))]
      ++ after
    ∧ Forall (λ e, ∀ id, ¬ touches e id) before
    ∧ Forall (λ e, ∀ id, touches e id →
                ∃ uniform, uniform_buffer (this st) = Some uniform
                           ∧ buffer_id uniform = id) after.
Proof.
  unfold reaches_upload, resolves_textures.
  intros (? & ? & ? & ? & ? & ? & ? & ?) Hbuffer Hfits. cbv zeta.
  run_render st.
  all: try (unfold current_model_transforms_size in *;
            cbn [model_transforms] in *; lia).
  all: eexists (_ :: _ :: _ :: _ :: [_]), _.
  all: split; [reflexivity|].
  all: split; repeat (apply Forall_cons; split); try apply Forall_nil.
  all: try exact I.
  all: intros id Htouch; simpl in Htouch; first [contradiction | eauto].
Qed.

(** *** The pipeline's buffers stay live *)

Lemma render_uniform_buffer scene st :
  uniform_buffer (this (snd (render scene st))) = uniform_buffer (this st).
Proof. render_paths st; reflexivity. Qed.

Lemma render_next_handle scene st :
  next_handle (core st) ≤ next_handle (core (snd (render scene st))).
Proof. render_paths st; lia. Qed.

(** The buffer a growing call creates. *)
Lemma render_grows_new_buffer scene st :
  grows scene st →
  let st' := snd (render scene st) in
  model_transforms (this st')
  = Some {| buffer_id := S (next_handle (core st));
            buffer_size :=
              byteLength
                (model_transforms_data (relevant_objects (this st) scene));
            buffer_usage :=
              N.lor GPUBufferUsage.STORAGE GPUBufferUsage.COPY_DST |}
  ∧ S (S (next_handle (core st))) ≤ next_handle (core st').
Proof.
  unfold grows, reaches_upload, resolves_textures.
  intros [(? & ? & ? & ? & ? & ? & ? & ?) ?]. cbv zeta.
  run_render st; try contradiction.
  all: split; [reflexivity|lia].
Qed.

Lemma live_after_render scene st buffer :
  live (core st) buffer →
  Forall (λ e, ∀ destroyed, e = GPU (destroy destroyed) →
               buffer_id destroyed ≠ buffer_id buffer)
    (frame_of st (snd (render scene st))) →
  live (core (snd (render scene st))) buffer.
Proof.
  intros (Hid & Husage & data & Hmemory) Hkept.
  split; [pose proof (render_next_handle scene st); lia|]. split; [done|].
  rewrite memory_after_render. by eapply alive_execute_all.
Qed.

(** One call keeps the pipeline's buffers live and apart. *)
Lemma render_owns_its_buffers scene st :
  owns_its_buffers st → owns_its_buffers (snd (render scene st)).
Proof.
  intros [Huniform Htransforms].
  destruct (grows_or_not scene st) as [Hgrows|Hkeeps].
  - destruct (render_grows scene st Hgrows)
      as (buffer & before & after & Hbuffer & _ & Hframe & Hothers).
    destruct (render_grows_new_buffer scene st Hgrows) as [Hnew Hnext].
    rewrite Hbuffer in Hnew. injection Hnew as ->.
    apply Forall_app in Hothers as [Hbefore Hafter].
    split.
    + intros uniform Hu. rewrite render_uniform_buffer in Hu.
      apply live_after_render; [by apply Huniform|].
      rewrite Hframe, !Forall_app. repeat split.
      * eapply Forall_impl; [exact Hbefore|].
        intros e He. by apply keeps_buffers_not_destroy.
      * destruct (model_transforms (this st)) as [old|] eqn:Hold;
          [|by apply Forall_nil].
        apply Forall_singleton. intros destroyed [= <-].
        destruct (Htransforms old eq_refl) as [_ Hapart].
        intros Hsame. by apply (Hapart uniform).
      * by apply Forall_singleton.
      * eapply Forall_impl; [exact Hafter|].
        intros e He. by apply keeps_buffers_not_destroy.
    + intros created Hcreated. rewrite Hbuffer in Hcreated.
      injection Hcreated as <-. split.
      * split; [simpl; lia|]. split; [by vm_compute|].
        rewrite memory_after_render, Hframe.
        rewrite (app_assoc before), execute_all_app.
        rewrite (execute_all_app _ [_]), execute_all_singleton.
        eapply alive_execute_all.
        -- simpl. unfold store_create. apply lookup_insert_eq.
        -- eapply Forall_impl; [exact Hafter|].
           intros e He. by apply keeps_buffers_not_destroy.
      * intros uniform Hu. rewrite render_uniform_buffer in Hu.
        destruct (Huniform uniform Hu) as [Hid _]. simpl. lia.
  - destruct (render_keeps scene st Hkeeps) as [Hsame Hkept].
    assert (Hnone : ∀ id,
      Forall (λ e, ∀ destroyed, e = GPU (destroy destroyed) →
                   buffer_id destroyed ≠ id)
        (frame_of st (snd (render scene st)))).
    { intros id. eapply Forall_impl; [exact Hkept|].
      intros e He. by apply keeps_buffers_not_destroy. }
    split.
    + intros uniform Hu. rewrite render_uniform_buffer in Hu.
      apply live_after_render; [by apply Huniform|apply Hnone].
    + intros buffer Hb. rewrite Hsame in Hb.
      destruct (Htransforms buffer Hb) as [Hlive Hapart]. split.
      * apply live_after_render; [done|apply Hnone].
      * intros uniform Hu. rewrite render_uniform_buffer in Hu. by apply Hapart.
Qed.

Lemma render_frames_own_their_buffers scenes st :
  owns_its_buffers st → owns_its_buffers (render_frames scenes st).
Proof.
  revert st. induction scenes as [|scene scenes IH]; intros st Howns; [done|].
  simpl. by apply IH, render_owns_its_buffers.
Qed.

(** C5: when the call reaches the grow-or-write step and the needed size is
    at most the capacity of the transform buffer, the pipeline has a buffer
    and keeps it: none is destroyed or created, and the packed transform
    data is written into it at offset 0. On a device that holds the buffer
    live and writable, apart from the uniform buffer, the write leaves
    every element past the written range as it was. *)
Theorem transform_buffer_written_in_place scene st :
  reaches_upload (this st) scene →
  needed_model_transform_size (relevant_objects (this st) scene)
  ≤ current_model_transforms_size (this st) →
  let st' := snd (render scene st) in
  let data := model_transforms_data (relevant_objects (this st) scene) in
  ∃ buffer,
    model_transforms (this st) = Some buffer
    ∧ model_transforms (this st') = Some buffer
    ∧ Forall keeps_buffers (frame_of st st')
    ∧ GPU (writeBuffer buffer 0 data) ∈ frame_of st st'
    ∧ ∀ old,
        memory (core st) !! buffer_id buffer
        = Some {| contents := old; destroyed := false |} →
        N.land (buffer_usage buffer) GPUBufferUsage.COPY_DST ≠ 0%N →
        (∀ uniform, uniform_buffer (this st) = Some uniform →
                    buffer_id uniform ≠ buffer_id buffer) →
        memory (core st') !! buffer_id buffer
        = Some {| contents := data ++ drop (length data) old;
                  destroyed := false |}.
Proof.
  intros Hreach Hfits st' data.
  destruct (model_transforms (this st)) as [buffer|] eqn:Hbuffer; last first.
  { (* without a buffer the capacity is 0, and at least 64 bytes are needed *)
    destruct Hreach as (object_0 & rest & Hrel & _). rewrite Hrel in Hfits.
    pose proof (needed_size_positive object_0 rest).
    unfold current_model_transforms_size in Hfits. rewrite Hbuffer in Hfits.
    lia. }
  assert (Hsize : current_model_transforms_size (this st) = buffer_size buffer)
    by (unfold current_model_transforms_size; by rewrite Hbuffer).
  destruct (render_keeps scene st) as [Hkept Hkeeps].
  { unfold grows. lia. }
  rewrite Hbuffer in Hkept.
  destruct (render_writes scene st buffer)
    as (before & after & Hframe & Hbefore & Hafter); [done|done|lia|].
  fold st' data in Hkept, Hkeeps, Hframe.
  exists buffer. repeat split; [done|done| |].
  - rewrite Hframe, !elem_of_app, elem_of_cons. auto.
  - intros old Hlive Husage Hdistinct.
    unfold st'. rewrite memory_after_render. fold st'. rewrite Hframe.
    rewrite !execute_all_app. rewrite lookup_execute_all_untouched.
    + rewrite execute_all_singleton.
      erewrite lookup_execute_writeBuffer;
        [by rewrite written_at_0| |done|done|].
      * rewrite lookup_execute_all_untouched; [done|].
        eapply Forall_impl; [exact Hbefore|]. by intros e He.
      * unfold data. rewrite byteLength_model_transforms_data. lia.
    + eapply Forall_impl; [exact Hafter|]. intros e He Htouch.
      destruct (He _ Htouch) as (uniform & Huniform & Hid).
      by apply (Hdistinct uniform).
Qed.

(** A constructed pipeline owns its uniform buffer, and stays the owner of
    its buffers over any sequence of frames. *)
Lemma constructed_pipeline_owns_its_buffers shader scene core pipeline core' :
  construct_pipeline shader scene core = (Fulfilled pipeline, core') →
  ∀ scenes,
    owns_its_buffers (render_frames scenes {| this := pipeline; core := core' |}).
Proof.
  intros Hrun scenes. apply render_frames_own_their_buffers.
  revert Hrun. unfold construct_pipeline, bind, await.
  destruct (get_shader scene shader); [|discriminate].
  destruct core as [handle events]. cbn. intros [= <- <-].
  split; [|discriminate]. cbn. intros uniform [= <-].
  split; [simpl; lia|]. split; [by vm_compute|].
  unfold memory. unfold record at 1. cbn [trace]. rewrite execute_all_app.
  rewrite execute_all_singleton. simpl. unfold store_create.
  rewrite lookup_insert_eq. eauto.
Qed.

End PipelineFacts.

(** ** Construction *)

(** What a call of [construct_pipeline] adds to the trace of the device. *)
Lemma construct_pipeline_run shader scene core :
  construct_pipeline shader scene core
  = match get_shader scene shader with
    | None =>
        (Rejected (rejected_by (await_get_shader shader)),
         record (Await (await_get_shader shader)) core)
    | Some code =>
        let handle := next_handle core in
        let uniform :=
          {| buffer_id := 4 + handle;
             buffer_size := 4 * DEFAULT_3D_UNIFORM_DATA_SIZE_FLOAT;
             buffer_usage :=
               N.lor GPUBufferUsage.UNIFORM GPUBufferUsage.COPY_DST |} in
        (Fulfilled
           {| shader_path := shader; gpu_pipeline := 3 + handle;
              model_transforms := None; uniform_buffer := Some uniform |},
         {| next_handle := 5 + handle;
            trace :=
              trace core
              ++ [Await (await_get_shader shader);
                  GPU (createShaderModule code handle);
                  GPU (createBindGroupLayout bind_group_layout_descriptor
                         (1 + handle));
                  GPU (createPipelineLayout [1 + handle] (2 + handle));
                  GPU (createRenderPipeline
                         {| label := get_pipeline_label;
                            pipeline_layout := 2 + handle;
                            vertex_module := handle;
                            arrayStride := 48;
                            attributes :=
                              [ {| shaderLocation := 0; attribute_offset := 0;
                                   format := "float32x4" |};
                                {| shaderLocation := 1; attribute_offset := 16;
                                   format := "float32x4" |};
                                {| shaderLocation := 2; attribute_offset := 32;
                                   format := "float32x4" |} ];
                            fragment_module := handle;
                            target_format := presentation_format scene;
                            topology := "triangle-list";
                            depth_format := "depth24plus";
                            depthWriteEnabled := true;
                            depthCompare := "less" |} (3 + handle));
                  GPU (createBuffer uniform
                         (replicate DEFAULT_3D_UNIFORM_DATA_SIZE_FLOAT
                            0%float))] |})
    end.
Proof.
  unfold construct_pipeline, bind, await.
  destruct (get_shader scene shader); [|done].
  destruct core as [handle events]. cbn.
  unfold ret, record, allocate_handle, with_uniform_buffer,
    new_Default3DPipeLine. cbn.
  rewrite <- !app_assoc. reflexivity.
Qed.

(** X9: without the shader there is no pipeline and no device object. When
    the shader promise is rejected, [construct_pipeline] rejects with that
    promise, before anything is asked of the device: no handle is taken,
    nothing but the suspension is recorded, and the memory of the device is
    as before. *)
Theorem construct_pipeline_rejects_without_shader shader scene core :
  get_shader scene shader = None →
  let core' := snd (construct_pipeline shader scene core) in
  fst (construct_pipeline shader scene core)
  = Rejected (rejected_by (await_get_shader shader))
  ∧ next_handle core' = next_handle core
  ∧ trace core' = trace core ++ [Await (await_get_shader shader)]
  ∧ memory core' = memory core.
Proof.
  intros Hshader. rewrite construct_pipeline_run, Hshader.
  simpl. repeat split.
  unfold memory. simpl. by rewrite execute_all_app.
Qed.

(** X10: when the shader resolves, construction fulfils with a pipeline for
    that shader identifier, without a transform buffer and with a uniform
    buffer of 464 bytes, zero-filled on the device. On the way it awaits the
    shader and creates, in this order, the shader module from the code, the
    bind group layout from [bind_group_layout_descriptor], a pipeline layout
    with that one layout, the render pipeline (labelled with the pipeline
    label, with the one module for both stages and the scene's presentation
    format as target) and the uniform buffer, each under a handle of its
    own. No other buffer of the device is touched. *)
Theorem construct_pipeline_creates_pipeline_and_uniform_buffer
    shader scene core code :
  get_shader scene shader = Some code →
  ∃ pipeline core' uniform,
    construct_pipeline shader scene core = (Fulfilled pipeline, core')
    ∧ shader_path pipeline = shader
    ∧ model_transforms pipeline = None
    ∧ uniform_buffer pipeline = Some uniform
    ∧ buffers_as_constructed pipeline
    ∧ memory core' !! buffer_id uniform
      = Some {| contents := replicate DEFAULT_3D_UNIFORM_DATA_SIZE_FLOAT 0%float;
                destroyed := false |}
    ∧ (∀ id, id ≠ buffer_id uniform → memory core' !! id = memory core !! id)
    ∧ ∃ module bind_group_layout layout descriptor,
        drop (length (trace core)) (trace core')
        = [Await (await_get_shader shader);
           GPU (createShaderModule code module);
           GPU (createBindGroupLayout bind_group_layout_descriptor
                  bind_group_layout);
           GPU (createPipelineLayout [bind_group_layout] layout);
           GPU (createRenderPipeline descriptor (gpu_pipeline pipeline));
           GPU (createBuffer uniform
                  (replicate DEFAULT_3D_UNIFORM_DATA_SIZE_FLOAT 0%float))]
        ∧ label descriptor = get_pipeline_label
        ∧ pipeline_layout descriptor = layout
        ∧ vertex_module descriptor = module
        ∧ fragment_module descriptor = module
        ∧ target_format descriptor = presentation_format scene
        ∧ NoDup [module; bind_group_layout; layout; gpu_pipeline pipeline;
                 buffer_id uniform]
        ∧ next_handle core ≤ module.
Proof.
  intros Hshader. rewrite construct_pipeline_run, Hshader. cbv zeta.
  eexists _, _, _. split; [reflexivity|].
  cbn [shader_path model_transforms uniform_buffer gpu_pipeline trace
       buffer_id].
  split; [done|]. split; [done|]. split; [done|].
  split. { split; [eauto|discriminate]. }
  assert (Hmemory : ∀ events created data,
    execute_all ∅ (events ++ [Await (await_get_shader shader);
      GPU (createShaderModule code (next_handle core));
      GPU (createBindGroupLayout bind_group_layout_descriptor
             (1 + next_handle core));
      GPU (createPipelineLayout [1 + next_handle core] (2 + next_handle core));
      GPU (createRenderPipeline created (3 + next_handle core));
      GPU (createBuffer
             {| buffer_id := 4 + next_handle core;
                buffer_size := 4 * DEFAULT_3D_UNIFORM_DATA_SIZE_FLOAT;
                buffer_usage :=
                  N.lor GPUBufferUsage.UNIFORM GPUBufferUsage.COPY_DST |}
             data)])
    = <[4 + next_handle core := {| contents := data; destroyed := false |}]>
        (execute_all ∅ events)).
  { intros events created data. by rewrite execute_all_app. }
  unfold memory. cbn [trace]. rewrite Hmemory.
  split; [apply lookup_insert_eq|].
  split; [intros id Hid; by rewrite lookup_insert_ne|].
  eexists _, _, _, _. rewrite drop_app_length.
  split; [reflexivity|]. cbn [label pipeline_layout vertex_module
                              fragment_module target_format].
  repeat split; [|lia].
  cbn [buffer_id].
  repeat (apply NoDup_cons_2;
          [rewrite ?elem_of_cons, elem_of_nil; lia|]).
  apply NoDup_nil_2.
Qed.

(** ** The pipeline over its lifetime *)

Section PipelineLifetime.

Context (get_pipeline_key : string → string).

#[local] Abbreviation render := (render get_pipeline_key).
#[local] Abbreviation relevant_objects := (relevant_objects get_pipeline_key).
#[local] Abbreviation reaches_upload := (reaches_upload get_pipeline_key).
#[local] Abbreviation render_frames := (render_frames get_pipeline_key).
#[local] Abbreviation grows := (grows get_pipeline_key).
#[local] Abbreviation upload_demand := (upload_demand get_pipeline_key).

(** The selection reads the shader identifier of the pipeline and nothing
    else of it. *)
Lemma relevant_objects_shader_path pipeline1 pipeline2 scene :
  shader_path pipeline1 = shader_path pipeline2 →
  relevant_objects pipeline1 scene = relevant_objects pipeline2 scene.
Proof. unfold relevant_objects. by intros ->. Qed.

Lemma render_identity scene st :
  let st' := snd (render scene st) in
  shader_path (this st') = shader_path (this st)
  ∧ gpu_pipeline (this st') = gpu_pipeline (this st)
  ∧ uniform_buffer (this st') = uniform_buffer (this st).
Proof. cbv zeta. render_paths st; done. Qed.

Lemma upload_demand_reaches scene st :
  reaches_upload (this st) scene →
  upload_demand (this st) scene
  = needed_model_transform_size (relevant_objects (this st) scene).
Proof.
  unfold reaches_upload, resolves_textures, upload_demand.
  intros (object_0 & rest & -> & [? ->] & [? ->] & [? ->] & [? ->] & [? ->]).
  done.
Qed.

Lemma upload_demand_positive scene st :
  0 < upload_demand (this st) scene → reaches_upload (this st) scene.
Proof.
  unfold reaches_upload, resolves_textures, upload_demand.
  intros Hpositive. repeat case_match; try lia.
  eexists _, _. split; [done|]. eauto 10.
Qed.

(** After one call the capacity is the larger of what it was and what the
    call asked for. *)
Lemma render_capacity scene st :
  current_model_transforms_size (this (snd (render scene st)))
  = current_model_transforms_size (this st) `max` upload_demand (this st) scene.
Proof.
  destruct (grows_or_not get_pipeline_key scene st) as [Hgrows|Hkeeps].
  - destruct (render_grows get_pipeline_key scene st Hgrows)
      as (buffer & _ & _ & Hbuffer & Hsize & _).
    destruct Hgrows as [Hreach Hless].
    rewrite upload_demand_reaches by done.
    unfold current_model_transforms_size at 1. rewrite Hbuffer, Hsize. lia.
  - destruct (render_keeps get_pipeline_key scene st Hkeeps) as [Hsame _].
    unfold current_model_transforms_size at 1. rewrite Hsame.
    fold (current_model_transforms_size (this st)).
    destruct (decide (current_model_transforms_size (this st)
                      < upload_demand (this st) scene)) as [Hless|]; [|lia].
    exfalso. apply Hkeeps.
    assert (Hreach : reaches_upload (this st) scene)
      by (apply upload_demand_positive; lia).
    split; [done|]. by rewrite <- upload_demand_reaches.
Qed.

Lemma render_frames_identity scenes st :
  let st' := render_frames scenes st in
  shader_path (this st') = shader_path (this st)
  ∧ gpu_pipeline (this st') = gpu_pipeline (this st)
  ∧ uniform_buffer (this st') = uniform_buffer (this st).
Proof.
  cbv zeta. revert st. induction scenes as [|scene scenes IH]; intros st; [done|].
  simpl. destruct (IH (snd (render scene st))) as (-> & -> & ->).
  apply render_identity.
Qed.

Lemma upload_demand_shader_path pipeline1 pipeline2 scene :
  shader_path pipeline1 = shader_path pipeline2 →
  upload_demand pipeline1 scene = upload_demand pipeline2 scene.
Proof.
  intros Hsame. unfold upload_demand.
  by rewrite (relevant_objects_shader_path pipeline1 pipeline2).
Qed.

(** X1: a pipeline keeps its identity over any sequence of frames: [render]
    never changes the shader identifier, the compiled pipeline or the
    uniform buffer of the instance, so the instance selects the same objects
    of a scene before and after any number of frames. *)
Theorem pipeline_identity_is_kept scenes st :
  let st' := render_frames scenes st in
  shader_path (this st') = shader_path (this st)
  ∧ gpu_pipeline (this st') = gpu_pipeline (this st)
  ∧ uniform_buffer (this st') = uniform_buffer (this st)
  ∧ ∀ scene,
      relevant_objects (this st') scene = relevant_objects (this st) scene.
Proof.
  cbv zeta. destruct (render_frames_identity scenes st) as (Hpath & ? & ?).
  repeat split; [done..|].
  intros scene. by apply relevant_objects_shader_path.
Qed.

(** X2: the capacity of the transform buffer is a high-water mark: after
    any sequence of frames it is the largest of the capacity before and the
    sizes needed by the frames that reached the grow-or-write step. It is
    never more than the largest frame needed, and never less. *)
Theorem capacity_is_high_water_mark scenes st :
  current_model_transforms_size (this (render_frames scenes st))
  = current_model_transforms_size (this st)
    `max` max_list (upload_demand (this st) <$> scenes).
Proof.
  revert st. induction scenes as [|scene scenes IH]; intros st.
  { simpl. lia. }
  simpl. rewrite IH, render_capacity.
  destruct (render_identity scene st) as (Hpath & _).
  rewrite (list_fmap_ext (upload_demand (this (snd (render scene st))))
             (upload_demand (this st)) scenes);
    [symmetry; apply Nat.max_assoc|].
  intros i scene' _. by apply upload_demand_shader_path.
Qed.

(** X3: once a frame has reached the grow-or-write step, a next frame that
    selects no more objects keeps the transform buffer: nothing is created
    or destroyed, and if that frame reaches the step the data is written
    into the buffer the pipeline holds. *)
Theorem next_frame_reuses_buffer scene scene' st :
  reaches_upload (this st) scene →
  length (relevant_objects (this st) scene')
  ≤ length (relevant_objects (this st) scene) →
  let st1 := snd (render scene st) in
  let st2 := snd (render scene' st1) in
  model_transforms (this st2) = model_transforms (this st1)
  ∧ Forall keeps_buffers (frame_of st1 st2)
  ∧ (reaches_upload (this st1) scene' →
     ∃ buffer,
       model_transforms (this st1) = Some buffer
       ∧ GPU (writeBuffer buffer 0
                (model_transforms_data (relevant_objects (this st) scene')))
         ∈ frame_of st1 st2).
Proof.
  intros Hreach Hfewer st1 st2.
  destruct (render_identity scene st) as (Hpath & _). fold st1 in Hpath.
  assert (Hselected :
    relevant_objects (this st1) scene' = relevant_objects (this st) scene')
    by by apply relevant_objects_shader_path.
  assert (Hfits :
    needed_model_transform_size (relevant_objects (this st1) scene')
    ≤ current_model_transforms_size (this st1)).
  { unfold st1 at 2. rewrite render_capacity, upload_demand_reaches by done.
    rewrite Hselected. unfold needed_model_transform_size. lia. }
  destruct (render_keeps get_pipeline_key scene' st1) as [Hsame Hkeeps].
  { unfold grows. lia. }
  split; [done|]. split; [done|]. intros Hreach'.
  destruct (model_transforms (this st1)) as [buffer|] eqn:Hbuffer.
  - exists buffer. split; [done|].
    destruct (render_writes get_pipeline_key scene' st1 buffer)
      as (before & after & Hframe & _); [done|done| |].
    { unfold current_model_transforms_size in Hfits.
      by rewrite Hbuffer in Hfits. }
    fold st2 in Hframe. rewrite Hframe, <- Hselected.
    rewrite !elem_of_app, elem_of_cons. auto.
  - destruct Hreach' as (object_0 & rest & Hrel & _). rewrite Hrel in Hfits.
    pose proof (needed_size_positive object_0 rest).
    unfold current_model_transforms_size in Hfits. rewrite Hbuffer in Hfits.
    lia.
Qed.

(** X4: the transform buffer always fits the frame. After a call that
    reached the grow-or-write step the capacity is at least the needed
    size, and whenever a frame binds a group and draws, the buffer bound
    whole at binding 5 is the pipeline's transform buffer and holds a matrix
    for every instance of the draw. *)
Theorem draw_stays_within_transform_buffer scene st :
  let st' := snd (render scene st) in
  let frame := frame_of st st' in
  (reaches_upload (this st) scene →
   needed_model_transform_size (relevant_objects (this st) scene)
   ≤ current_model_transforms_size (this st'))
  ∧ ∀ descriptor group pass indexCount instanceCount firstIndex baseVertex
      firstInstance,
      GPU (createBindGroup descriptor group) ∈ frame →
      GPU (drawIndexed pass indexCount instanceCount firstIndex baseVertex
             firstInstance) ∈ frame →
      ∃ buffer,
        model_transforms (this st') = Some buffer
        ∧ (5, buffer_binding buffer 0 (buffer_size buffer))
          ∈ entries descriptor
        ∧ (firstInstance + instanceCount) * 64 ≤ buffer_size buffer.
Proof.
  cbv zeta. split.
  { intros Hreach. rewrite render_capacity, upload_demand_reaches by done. lia. }
  render_paths st.
  all: intros descriptor group ?????? Hgroup Hdraw.
  all: frame_cases Hgroup; frame_cases Hdraw.
  all: eexists; split; [reflexivity|]; split; [cbn [entries]; in_frame|].
  all: cbn [buffer_size]; rewrite ?byteLength_model_transforms_data.
  all: unfold needed_model_transform_size, current_model_transforms_size in *.
  all: cbn [model_transforms length] in *; lia.
Qed.

(** X5: a rejected texture promise decides the call. In a call that is not
    skipped, the first of the diffuse, specular and normal texture promises
    of the first selected object that is rejected rejects the call with its
    own reason, as the last event of the frame. Nothing has been uploaded
    by then: the frame creates, destroys and writes no buffer, the memory
    of the device is as before, and the pipeline instance is unchanged. *)
Theorem render_rejects_by_first_rejected_texture scene st object_0 rest ref :
  relevant_objects (this st) scene = object_0 :: rest →
  is_Some (texture_view scene) →
  is_Some (depth_texture_view scene) →
  first_rejected_texture scene object_0 = Some ref →
  let st' := snd (render scene st) in
  let frame := frame_of st st' in
  fst (render scene st) = Rejected (rejected_by (await_load_texture ref))
  ∧ last frame = Some (Await (await_load_texture ref))
  ∧ Forall (λ e, ∀ id, ¬ touches e id) frame
  ∧ memory (core st') = memory (core st)
  ∧ this st' = this st.
Proof.
  intros Hrel Hview Hdepth Hfirst. cbv zeta.
  rewrite memory_after_render.
  assert (Huntouched : ∀ store events,
    Forall (λ e, ∀ id, ¬ touches e id) events →
    execute_all store events = store).
  { intros store events Hall. revert store.
    induction Hall as [|e events He _ IH]; intros store; [done|].
    simpl. rewrite IH. destruct e as [[]|]; try done.
    all: exfalso; eapply He; simpl; reflexivity. }
  revert Hfirst. unfold first_rejected_texture. cbn [find].
  run_render st.
  all: repeat (case_bool_decide; try done).
  all: intros [= <-].
  all: split; [done|]; split; [done|].
  all: split;
    [|split; [apply Huntouched|done]];
    repeat (apply Forall_cons; split); try apply Forall_nil;
    try (intros id Htouch; exact Htouch); try exact I.
Qed.

(** X6: one frame, one render pass. Every command of a frame is encoded
    into the pass the frame began. A fulfilled call that began a pass drew
    once and ended it, with the end as its last event; a rejected call has
    begun a pass and left it open, without a draw. *)
Theorem render_pass_is_bracketed scene st :
  let frame := frame_of st (snd (render scene st)) in
  let render_pass := next_handle (core st) in
  (∀ e pass, e ∈ frame → pass_of e = Some pass → pass = render_pass)
  ∧ (fst (render scene st) = Fulfilled tt →
     frame = []
     ∨ (count_events is_beginRenderPass frame = 1
        ∧ count_events is_drawIndexed frame = 1
        ∧ count_events is_end_pass frame = 1
        ∧ last frame = Some (GPU (end_pass render_pass))))
  ∧ (∀ reason,
       fst (render scene st) = Rejected reason →
       count_events is_beginRenderPass frame = 1
       ∧ count_events is_drawIndexed frame = 0
       ∧ count_events is_end_pass frame = 0).
Proof.
  cbv zeta. render_paths st.
  all: split; [intros e pass Hin Hpass; frame_cases Hin; by injection Hpass|].
  all: split; [intros Hdone; try discriminate Hdone; auto|].
  all: intros reason Hrejected; try discriminate Hrejected; auto.
Qed.


(** *** The uniform write, on the device *)

(** A write longer than the buffer is dropped by the device. *)
Lemma execute_writeBuffer_too_long store buffer bufferOffset data :
  buffer_size buffer < bufferOffset + byteLength data →
  execute store (GPU (writeBuffer buffer bufferOffset data)) = store.
Proof.
  intros Hlong. cbn [execute]. unfold write_valid.
  apply Nat.leb_gt in Hlong. rewrite Hlong.
  destruct (store !! buffer_id buffer); [|done]. by rewrite !andb_false_r.
Qed.

(** Around the uniform write: before it the frame acts on the transform
    buffer only, after it on no buffer at all. *)
Lemma render_uniform_frame scene st object_0 rest uniform :
  owns_its_buffers st →
  relevant_objects (this st) scene = object_0 :: rest →
  is_Some (texture_view scene) →
  is_Some (depth_texture_view scene) →
  resolves_textures scene object_0 →
  uniform_buffer (this st) = Some uniform →
  ∃ before after,
    frame_of st (snd (render scene st))
    = before
      ++ [GPU (writeBuffer uniform 0
                 (uniform_data (flag (has_texture_diffuse object_0))
                    (flag (has_texture_specular object_0))
                    (flag (has_texture_normal object_0))
                    (camera scene) (lights scene)))]
      ++ after
    ∧ Forall (λ e, ¬ touches e (buffer_id uniform)) before
    ∧ Forall (λ e, ∀ id, ¬ touches e id) after.
Proof.
  unfold owns_its_buffers, live, resolves_textures.
  intros [Huniform Htransforms] Hrel Hview Hdepth (? & ? & ?) Hu.
  run_render st.
  all: destruct (Huniform _ eq_refl) as (Hbelow & _).
  all: try destruct (Htransforms _ eq_refl) as (_ & Hapart).
  all: try specialize (Hapart _ eq_refl).
  all: first
    [ eexists (_ :: _ :: _ :: _ :: _ :: _ :: [_]), _; split; [reflexivity|]
    | eexists (_ :: _ :: _ :: _ :: _ :: [_]), _; split; [reflexivity|] ].
  all: split; repeat (apply Forall_cons; split); try apply Forall_nil.
  all: try exact I.
  all: try (intros id Htouch); try (intros Htouch).
  all: simpl in Htouch; first [contradiction | lia | congruence].
Qed.

(** X7: the uniform write lands exactly when it fits. The uniform buffer
    holds 116 floats, the write is 36 + 8 n floats long for n lights: with
    at most 10 lights the device replaces the head of the buffer and keeps
    the records of the lights beyond n as they were; with more than 10 it
    drops the whole write, and flags, light count, matrices and lights of
    the buffer all stay those of an earlier frame. *)
Theorem uniform_write_lands_iff_it_fits scene st object_0 rest uniform old :
  owns_its_buffers st →
  relevant_objects (this st) scene = object_0 :: rest →
  is_Some (texture_view scene) →
  is_Some (depth_texture_view scene) →
  resolves_textures scene object_0 →
  uniform_buffer (this st) = Some uniform →
  buffer_size uniform = 4 * DEFAULT_3D_UNIFORM_DATA_SIZE_FLOAT →
  memory (core st) !! buffer_id uniform
  = Some {| contents := old; destroyed := false |} →
  Forall light_shaped (lights scene) →
  let st' := snd (render scene st) in
  let data :=
    uniform_data (flag (has_texture_diffuse object_0))
      (flag (has_texture_specular object_0))
      (flag (has_texture_normal object_0)) (camera scene) (lights scene) in
  GPU (writeBuffer uniform 0 data) ∈ frame_of st st'
  ∧ (length (lights scene) ≤ 10 →
     memory (core st') !! buffer_id uniform
     = Some {| contents := data ++ drop (length data) old;
               destroyed := false |})
  ∧ (10 < length (lights scene) →
     memory (core st') !! buffer_id uniform
     = Some {| contents := old; destroyed := false |}).
Proof.
  intros Howns Hrel Hview Hdepth Hresolves Hu Hsize Hold Hshaped st' data.
  destruct (render_uniform_frame scene st object_0 rest uniform)
    as (before & after & Hframe & Hbefore & Hafter); [done..|].
  fold st' data in Hframe.
  assert (Hlength : byteLength data = 4 * (36 + 8 * length (lights scene))).
  { unfold byteLength, data. rewrite length_uniform_data_shaped by done. lia. }
  assert (Hstore :
    execute_all (memory (core st)) before !! buffer_id uniform
    = Some {| contents := old; destroyed := false |})
    by by rewrite lookup_execute_all_untouched.
  assert (Hrest : ∀ store,
    execute_all store after !! buffer_id uniform = store !! buffer_id uniform).
  { intros store. apply lookup_execute_all_untouched.
    eapply Forall_impl; [exact Hafter|]. by intros e He. }
  split; [|split].
  - rewrite Hframe, !elem_of_app, elem_of_cons. auto.
  - intros Hfew. unfold st'. rewrite memory_after_render. fold st'.
    rewrite Hframe, !execute_all_app, Hrest, execute_all_singleton.
    erewrite lookup_execute_writeBuffer; [by rewrite written_at_0|done| |done|].
    + destruct Howns as [Huniform _].
      by destruct (Huniform uniform Hu) as (_ & ? & _).
    + rewrite Hlength, Hsize. unfold DEFAULT_3D_UNIFORM_DATA_SIZE_FLOAT. lia.
  - intros Hmany. unfold st'. rewrite memory_after_render. fold st'.
    rewrite Hframe, !execute_all_app, Hrest, execute_all_singleton.
    rewrite execute_writeBuffer_too_long; [done|].
    rewrite Hlength, Hsize. unfold DEFAULT_3D_UNIFORM_DATA_SIZE_FLOAT. lia.
Qed.

(** *** The bind group *)

(** The bind group of a frame, entry by entry. *)
Lemma render_bind_group scene st descriptor group :
  GPU (createBindGroup descriptor group) ∈ frame_of st (snd (render scene st)) →
  ∃ uniform transforms sampler diffuse specular normal,
    uniform_buffer (this st) = Some uniform
    ∧ model_transforms (this (snd (render scene st))) = Some transforms
    ∧ entries descriptor
      = [(0, buffer_binding uniform 0 (buffer_size uniform));
         (1, sampler_binding sampler);
         (2, view_binding diffuse);
         (3, view_binding specular);
         (4, view_binding normal);
         (5, buffer_binding transforms 0 (buffer_size transforms))]
    ∧ GPU (getBindGroupLayout (gpu_pipeline (this st)) 0 (layout descriptor))
      ∈ frame_of st (snd (render scene st))
    ∧ GPU (setBindGroup (next_handle (core st)) 0 group)
      ∈ frame_of st (snd (render scene st)).
Proof.
  render_paths st.
  all: intros Hgroup; frame_cases Hgroup.
  all: eexists _, _, _, _, _, _.
  all: split; [reflexivity|]; split; [reflexivity|]; split; [reflexivity|].
  all: split; in_frame.
Qed.

(** One call keeps the shape of the pipeline's buffers. *)
Lemma render_buffers_as_constructed scene st :
  buffers_as_constructed (this st) →
  buffers_as_constructed (this (snd (render scene st))).
Proof.
  intros [Huniform Htransforms]. split.
  { by rewrite render_uniform_buffer. }
  destruct (grows_or_not get_pipeline_key scene st) as [Hgrows|Hkeeps].
  - destruct (render_grows_new_buffer get_pipeline_key scene st Hgrows)
      as [-> _].
    intros buffer [= <-]. split; [done|]. cbn [buffer_size].
    rewrite byteLength_model_transforms_data.
    destruct Hgrows as [(object_0 & rest & -> & _) _].
    exists (length rest). unfold needed_model_transform_size. simpl. lia.
  - destruct (render_keeps get_pipeline_key scene st Hkeeps) as [-> _]. done.
Qed.

Lemma render_frames_buffers_as_constructed scenes st :
  buffers_as_constructed (this st) →
  buffers_as_constructed (this (render_frames scenes st)).
Proof.
  revert st. induction scenes as [|scene scenes IH]; intros st Hshape; [done|].
  simpl. by apply IH, render_buffers_as_constructed.
Qed.

(** X8: the bind group of a frame follows the layout declared for the
    pipeline. Whenever a frame creates a bind group, its entries are those
    of [bind_group_layout_descriptor], binding by binding: a buffer, a
    sampler, three texture views, a buffer. Its layout is asked from the
    pipeline's own compiled pipeline at index 0, binding 0 is the whole of
    the pipeline's uniform buffer, and the group is set at index 0 of the
    frame's render pass. *)
Theorem bind_group_follows_declared_layout scene st descriptor group :
  let frame := frame_of st (snd (render scene st)) in
  GPU (createBindGroup descriptor group) ∈ frame →
  Forall2 (λ entry bound, layout_binding entry = bound.1 ∧ of_kind entry bound.2)
    bind_group_layout_descriptor (entries descriptor)
  ∧ GPU (getBindGroupLayout (gpu_pipeline (this st)) 0 (layout descriptor))
    ∈ frame
  ∧ (∃ uniform,
       uniform_buffer (this st) = Some uniform
       ∧ entries descriptor !! 0
         = Some (0, buffer_binding uniform 0 (buffer_size uniform)))
  ∧ GPU (setBindGroup (next_handle (core st)) 0 group) ∈ frame.
Proof.
  intros frame Hgroup.
  destruct (render_bind_group scene st descriptor group Hgroup)
    as (uniform & transforms & sampler & diffuse & specular & normal
        & Huniform & _ & -> & Hlayout & Hset).
  split; [|eauto].
  unfold bind_group_layout_descriptor. by repeat constructor.
Qed.

(** X11: a pipeline made by [construct_pipeline] stays well formed over any
    sequence of frames: its buffers are live on the device and two
    different buffers, the uniform buffer has the 464 bytes of the uniform
    layout, and the transform buffer holds whole matrices. Every bind group
    of a later frame binds, at 0, the whole uniform buffer, which has the
    usage [UNIFORM] its layout entry asks for, and at 5 a buffer with the
    usage [STORAGE]. *)
Theorem constructed_pipeline_stays_well_formed
    shader scene core pipeline core' scenes :
  construct_pipeline shader scene core = (Fulfilled pipeline, core') →
  let st := render_frames scenes {| this := pipeline; core := core' |} in
  owns_its_buffers st
  ∧ buffers_as_constructed (this st)
  ∧ ∀ scene' descriptor group,
      GPU (createBindGroup descriptor group)
      ∈ frame_of st (snd (render scene' st)) →
      ∃ uniform transforms,
        entries descriptor !! 0
        = Some (0, buffer_binding uniform 0
                     (4 * DEFAULT_3D_UNIFORM_DATA_SIZE_FLOAT))
        ∧ has_usage GPUBufferUsage.UNIFORM uniform
        ∧ entries descriptor !! 5
          = Some (5, buffer_binding transforms 0 (buffer_size transforms))
        ∧ has_usage GPUBufferUsage.STORAGE transforms.
Proof.
  intros Hrun st.
  assert (Hshape : buffers_as_constructed (this st)).
  { apply render_frames_buffers_as_constructed. cbn [this].
    rewrite construct_pipeline_run in Hrun.
    destruct (get_shader scene shader); [|discriminate].
    injection Hrun as <- _. split; [eauto|discriminate]. }
  split; [by eapply constructed_pipeline_owns_its_buffers|].
  split; [done|].
  intros scene' descriptor group Hgroup.
  destruct (render_bind_group scene' st descriptor group Hgroup)
    as (uniform & transforms & sampler & diffuse & specular & normal
        & Huniform & Htransforms & -> & _).
  exists uniform, transforms.
  destruct (render_buffers_as_constructed scene' st Hshape)
    as [_ Hstorage].
  destruct (Hstorage transforms Htransforms) as [Hstorage_usage _].
  destruct Hshape as [(uniform' & Hu & Hsize & Husage) _].
  rewrite Huniform in Hu. injection Hu as <-.
  rewrite Hsize. unfold has_usage. rewrite Husage, Hstorage_usage.
  repeat split; by vm_compute.
Qed.

(** X12: a frame acts on the pipeline's own buffers only. Any other buffer
    the device held before the call has the memory it had, and is destroyed
    after the call if and only if it was before. *)
Theorem render_leaves_other_buffers scene st id :
  id < next_handle (core st) →
  (∀ uniform, uniform_buffer (this st) = Some uniform →
              buffer_id uniform ≠ id) →
  (∀ buffer, model_transforms (this st) = Some buffer →
             buffer_id buffer ≠ id) →
  memory (core (snd (render scene st))) !! id = memory (core st) !! id.
Proof.
  intros Hbelow Huniform Htransforms.
  rewrite memory_after_render. apply lookup_execute_all_untouched.
  revert Hbelow Huniform Htransforms. render_paths st.
  all: intros Hbelow Huniform Htransforms.
  all: repeat (apply Forall_cons; split); try apply Forall_nil.
  all: try exact I.
  all: simpl; try tauto; try lia.
  all: try (by apply Huniform); try (by apply Htransforms).
Qed.

(** *** Buffers the pipeline has replaced *)

(** Short of a creation under its handle, a buffer of the device stays one,
    and a destroyed buffer stays destroyed. *)
Lemma destroyed_execute store e id state :
  store !! id = Some state →
  (∀ buffer data, e = GPU (createBuffer buffer data) → buffer_id buffer ≠ id) →
  ∃ state',
    execute store e !! id = Some state'
    ∧ (destroyed state = true → destroyed state' = true)
    ∧ (∀ buffer, e = GPU (destroy buffer) → buffer_id buffer = id →
                 destroyed state' = true).
Proof.
  intros Hstate Hcreate.
  assert (Hsame : ∀ store' : gmap nat BufferState,
    store' !! id = Some state →
    (∀ buffer, e = GPU (destroy buffer) → buffer_id buffer ≠ id) →
    ∃ state',
      store' !! id = Some state'
      ∧ (destroyed state = true → destroyed state' = true)
      ∧ (∀ buffer, e = GPU (destroy buffer) → buffer_id buffer = id →
                   destroyed state' = true)).
  { intros store' Hstate' Hother. exists state. split; [done|].
    split; [done|]. intros buffer He Hid. by destruct (Hother buffer He). }
  destruct e as [[]|]; simpl; try (apply Hsame; [done|discriminate]).
  - apply Hsame; [|discriminate].
    unfold store_create. rewrite lookup_insert_ne by eauto. done.
  - unfold store_destroy. destruct (decide (buffer_id buffer = id)) as [<-|].
    + eexists. rewrite lookup_alter_eq, Hstate. simpl. eauto.
    + apply Hsame; [by rewrite lookup_alter_ne|]. by intros ? [= <-].
  - case_match; [|apply Hsame; [done|discriminate]].
    unfold store_write. destruct (decide (buffer_id buffer = id)) as [<-|].
    + eexists. rewrite lookup_alter_eq, Hstate. simpl.
      split; [done|]. split; [done|]. discriminate.
    + apply Hsame; [by rewrite lookup_alter_ne|discriminate].
Qed.

Lemma destroyed_execute_all store events id state :
  store !! id = Some state →
  Forall (λ e, ∀ buffer data, e = GPU (createBuffer buffer data) →
               buffer_id buffer ≠ id) events →
  ∃ state',
    execute_all store events !! id = Some state'
    ∧ (destroyed state = true → destroyed state' = true).
Proof.
  intros Hstate Hcreate. revert store state Hstate.
  induction Hcreate as [|e events He _ IH]; intros store state Hstate; [eauto|].
  destruct (destroyed_execute store e id state Hstate He)
    as (state1 & Hstate1 & Hkept & _).
  destruct (IH _ _ Hstate1) as (state' & Hstate' & Hkept').
  exists state'. split; [done|]. auto.
Qed.

Lemma keeps_buffers_not_create e id :
  keeps_buffers e →
  ∀ buffer data, e = GPU (createBuffer buffer data) → buffer_id buffer ≠ id.
Proof. intros [Hkeeps _] buffer data ->. discriminate Hkeeps. Qed.

(** What one call does to a buffer the device holds: it stays a buffer of
    the device, destroyed if it was; the transform buffer of the pipeline is
    either kept by the pipeline or destroyed. *)
Lemma render_retires scene st id state :
  memory (core st) !! id = Some state →
  id < next_handle (core st) →
  let st' := snd (render scene st) in
  ∃ state',
    memory (core st') !! id = Some state'
    ∧ (destroyed state = true → destroyed state' = true)
    ∧ ∀ buffer,
        model_transforms (this st) = Some buffer →
        buffer_id buffer = id →
        model_transforms (this st') = Some buffer ∨ destroyed state' = true.
Proof.
  intros Hstate Hbelow st'. unfold st'. rewrite memory_after_render. fold st'.
  destruct (grows_or_not get_pipeline_key scene st) as [Hgrows|Hkeeps].
  - destruct (render_grows get_pipeline_key scene st Hgrows)
      as (created & before & after & Hcreated & _ & Hframe & Hothers).
    destruct (render_grows_new_buffer get_pipeline_key scene st Hgrows)
      as [Hnew _].
    fold st' in Hcreated, Hframe, Hnew.
    rewrite Hcreated in Hnew. injection Hnew as ->.
    apply Forall_app in Hothers as [Hbefore Hafter].
    rewrite Hframe, !execute_all_app, execute_all_singleton.
    destruct (destroyed_execute_all (memory (core st)) before id state Hstate)
      as (state1 & Hstate1 & Hkept1).
    { eapply Forall_impl; [exact Hbefore|].
      intros e He. by apply keeps_buffers_not_create. }
    assert (Hretired : ∃ state2,
      execute_all (execute_all (memory (core st)) before)
        (destroy_old (model_transforms (this st))) !! id = Some state2
      ∧ (destroyed state1 = true → destroyed state2 = true)
      ∧ ∀ buffer, model_transforms (this st) = Some buffer →
                  buffer_id buffer = id → destroyed state2 = true).
    { destruct (model_transforms (this st)) as [old|]; simpl.
      - destruct (destroyed_execute (execute_all (memory (core st)) before)
                    (GPU (destroy old)) id state1 Hstate1)
          as (state2 & Hstate2 & Hkept2 & Hdestroyed); [done|].
        exists state2. split; [done|]. split; [done|].
        intros buffer [= <-] Hid. by eapply Hdestroyed.
      - exists state1. split; [done|]. split; [done|]. discriminate. }
    destruct Hretired as (state2 & Hstate2 & Hkept2 & Hdestroyed).
    destruct (destroyed_execute_all
                (execute
                   (execute_all (execute_all (memory (core st)) before)
                      (destroy_old (model_transforms (this st))))
                   (GPU (createBuffer
                           {| buffer_id := S (next_handle (core st));
                              buffer_size :=
                                byteLength
                                  (model_transforms_data
                                     (relevant_objects (this st) scene));
                              buffer_usage :=
                                N.lor GPUBufferUsage.STORAGE
                                  GPUBufferUsage.COPY_DST |}
                           (model_transforms_data
                              (relevant_objects (this st) scene)))))
                after id state2)
      as (state' & Hstate' & Hkept').
    { rewrite lookup_execute_untouched; [done|]. simpl. lia. }
    { eapply Forall_impl; [exact Hafter|].
      intros e He. by apply keeps_buffers_not_create. }
    exists state'. split; [done|]. split; [auto|].
    intros buffer Hbuffer Hid. right. eauto.
  - destruct (render_keeps get_pipeline_key scene st Hkeeps) as [Hsame Hkept].
    fold st' in Hsame, Hkept.
    destruct (destroyed_execute_all (memory (core st)) (frame_of st st')
                id state Hstate)
      as (state' & Hstate' & Hkept').
    { eapply Forall_impl; [exact Hkept|].
      intros e He. by apply keeps_buffers_not_create. }
    exists state'. split; [done|]. split; [done|].
    intros buffer Hbuffer _. left. by rewrite Hsame.
Qed.

(** A buffer created by a call is the transform buffer of the pipeline
    after the call. *)
Lemma render_created scene st buffer data :
  let st' := snd (render scene st) in
  GPU (createBuffer buffer data) ∈ frame_of st st' →
  model_transforms (this st') = Some buffer
  ∧ buffer_id buffer < next_handle (core st')
  ∧ is_Some (memory (core st') !! buffer_id buffer).
Proof.
  intros st' Hin.
  assert (Hnot : ∀ events,
    Forall keeps_buffers events →
    GPU (createBuffer buffer data) ∈ events → False).
  { intros events Hkeep Hmember.
    rewrite Forall_forall in Hkeep. by destruct (Hkeep _ Hmember). }
  destruct (grows_or_not get_pipeline_key scene st) as [Hgrows|Hkeeps];
    last first.
  { destruct (render_keeps get_pipeline_key scene st Hkeeps) as [_ Hkept].
    by destruct (Hnot _ Hkept Hin). }
  destruct (render_grows get_pipeline_key scene st Hgrows)
    as (created & before & after & Hcreated & _ & Hframe & Hothers).
  destruct (render_grows_new_buffer get_pipeline_key scene st Hgrows)
    as [Hnew Hnext].
  fold st' in Hcreated, Hframe, Hnew, Hnext.
  apply Forall_app in Hothers as [Hbefore Hafter].
  rewrite Hframe, !elem_of_app in Hin.
  destruct Hin as [Hin|[Hin|[Hin|Hin]]];
    [by destruct (Hnot _ Hbefore Hin)| | |by destruct (Hnot _ Hafter Hin)].
  { destruct (model_transforms (this st)); simpl in Hin.
    - by apply list_elem_of_singleton in Hin.
    - by apply elem_of_nil in Hin. }
  apply list_elem_of_singleton in Hin. injection Hin as -> ->.
  split; [done|]. rewrite Hcreated in Hnew. injection Hnew as Hnew.
  split; [rewrite Hnew; simpl; lia|].
  unfold st'. rewrite memory_after_render. fold st'.
  rewrite Hframe, (app_assoc before), execute_all_app.
  rewrite (execute_all_app _ [_]), execute_all_singleton.
  destruct (destroyed_execute_all
              (execute
                 (execute_all (memory (core st))
                    (before ++ destroy_old (model_transforms (this st))))
                 (GPU (createBuffer created
                         (model_transforms_data
                            (relevant_objects (this st) scene)))))
              after (buffer_id created)
              {| contents :=
                   model_transforms_data (relevant_objects (this st) scene);
                 destroyed := false |})
    as (state' & -> & _); [| |done].
  - simpl. unfold store_create. apply lookup_insert_eq.
  - eapply Forall_impl; [exact Hafter|].
    intros e He. by apply keeps_buffers_not_create.
Qed.

Lemma render_frames_extends_trace scenes st :
  trace (core (render_frames scenes st))
  = trace (core st) ++ frame_of st (render_frames scenes st).
Proof.
  revert st. induction scenes as [|scene scenes IH]; intros st.
  { simpl. by rewrite frame_of_same, app_nil_r. }
  simpl. unfold frame_of. rewrite IH, render_extends_trace, <- app_assoc.
  by rewrite !drop_app_length.
Qed.

Lemma frame_of_render_frames_snoc scenes scene st :
  frame_of st (render_frames (scenes ++ [scene]) st)
  = frame_of st (render_frames scenes st)
    ++ frame_of (render_frames scenes st)
         (snd (render scene (render_frames scenes st))).
Proof.
  rewrite render_frames_app. simpl. unfold frame_of at 1.
  rewrite render_extends_trace, render_frames_extends_trace, <- app_assoc.
  by rewrite drop_app_length.
Qed.

Lemma render_frames_created scenes st buffer data :
  let st' := render_frames scenes st in
  GPU (createBuffer buffer data) ∈ frame_of st st' →
  buffer_id buffer < next_handle (core st')
  ∧ ∃ state,
      memory (core st') !! buffer_id buffer = Some state
      ∧ (model_transforms (this st') = Some buffer ∨ destroyed state = true).
Proof.
  cbv zeta. induction scenes as [|scene scenes IH] using rev_ind.
  { simpl. rewrite frame_of_same. by intros ?%elem_of_nil. }
  rewrite frame_of_render_frames_snoc, render_frames_app. simpl.
  intros [Hearlier|Hlast]%elem_of_app.
  - destruct (IH Hearlier) as (Hbelow & state & Hstate & Hcase).
    destruct (render_retires scene (render_frames scenes st) _ state
                Hstate Hbelow)
      as (state' & Hstate' & Hkept & Hcurrent).
    split.
    { pose proof (render_next_handle get_pipeline_key scene
                    (render_frames scenes st)). lia. }
    exists state'. split; [done|].
    destruct Hcase as [Hbuffer|Hdestroyed]; [by apply Hcurrent|auto].
  - destruct (render_created scene (render_frames scenes st) buffer data Hlast)
      as (Hbuffer & Hbelow & state & Hstate).
    split; [done|]. exists state. auto.
Qed.

(** X13: no transform buffer is leaked. Of all the buffers the frames of a
    pipeline have created, only the one the pipeline holds can be alive:
    every other one has been destroyed on the device, and stays so. *)
Theorem replaced_transform_buffers_are_destroyed scenes st buffer data :
  let st' := render_frames scenes st in
  GPU (createBuffer buffer data) ∈ frame_of st st' →
  model_transforms (this st') = Some buffer
  ∨ ∃ contents,
      memory (core st') !! buffer_id buffer
      = Some {| contents := contents; destroyed := true |}.
Proof.
  intros st' Hcreated.
  destruct (render_frames_created scenes st buffer data Hcreated)
    as (_ & [contents destroyed] & Hstate & [Hcurrent|Hdestroyed]); [by left|].
  right. exists contents. simpl in Hdestroyed. by rewrite <- Hdestroyed.
Qed.

End PipelineLifetime.

(** ** The transform buffer, the routing and the lights *)

Section PipelineData.

Context (get_pipeline_key : string → string).

#[local] Abbreviation render := (render get_pipeline_key).
#[local] Abbreviation relevant_objects := (relevant_objects get_pipeline_key).
#[local] Abbreviation reaches_upload := (reaches_upload get_pipeline_key).
#[local] Abbreviation render_frames := (render_frames get_pipeline_key).
#[local] Abbreviation grows := (grows get_pipeline_key).

(** The call grows the buffer when it reaches the grow-or-write step and
    needs more than the size of the buffer the pipeline holds, if it holds
    one. *)
Lemma grows_beyond_held_buffer scene st :
  grows scene st
  ↔ reaches_upload (this st) scene
    ∧ ∀ buffer,
        model_transforms (this st) = Some buffer →
        buffer_size buffer
        < needed_model_transform_size (relevant_objects (this st) scene).
Proof.
  unfold grows, current_model_transforms_size.
  split; (intros [Hreach Hless]; split; [done|]).
  - intros buffer Hbuffer. by rewrite Hbuffer in Hless.
  - destruct (model_transforms (this st)) as [buffer|]; [by apply Hless|].
    destruct Hreach as (object_0 & rest & -> & _).
    pose proof (needed_size_positive object_0 rest). lia.
Qed.

(** A pipeline that holds a transform buffer holds one after any frames, of
    at least that size. *)
Lemma render_frames_held_buffer scenes st buffer :
  model_transforms (this st) = Some buffer →
  ∃ buffer',
    model_transforms (this (render_frames scenes st)) = Some buffer'
    ∧ buffer_size buffer ≤ buffer_size buffer'.
Proof.
  intros Hbuffer.
  pose proof (render_frames_capacity_monotone get_pipeline_key scenes st)
    as Hmonotone.
  unfold current_model_transforms_size in Hmonotone.
  rewrite Hbuffer in Hmonotone.
  assert (Hheld : is_Some (model_transforms (this (render_frames scenes st)))).
  { clear Hmonotone. revert st buffer Hbuffer.
    induction scenes as [|scene scenes IH]; intros st buffer Hbuffer; [by eauto|].
    simpl. destruct (grows_or_not get_pipeline_key scene st) as [Hgrows|Hkeeps].
    - destruct (render_grows get_pipeline_key scene st Hgrows)
        as (created & _ & _ & Hcreated & _). by eapply IH.
    - destruct (render_keeps get_pipeline_key scene st Hkeeps) as [Hsame _].
      eapply IH. by rewrite Hsame. }
  destruct Hheld as [buffer' Hbuffer']. rewrite Hbuffer' in Hmonotone. eauto.
Qed.

(** C4: over any sequence of calls on one pipeline instance the transform
    buffer never gets smaller: a pipeline that holds a buffer after some
    frames holds one of at least that size after any further frames. Within
    one call the buffer is reallocated exactly when the call reaches the
    grow-or-write step and the needed size (64 bytes per selected object)
    strictly exceeds the size of the buffer held, if one is held; then the
    old buffer, if any, is destroyed, the new one is created from the packed
    transform data, its size is exactly the needed size, and it becomes the
    pipeline's transform buffer. Otherwise the pipeline keeps its buffer and
    no buffer is created or destroyed. *)
Theorem transform_buffer_grows_on_demand :
  (∀ earlier later st buffer,
     model_transforms (this (render_frames earlier st)) = Some buffer →
     ∃ buffer',
       model_transforms (this (render_frames (earlier ++ later) st))
       = Some buffer'
       ∧ buffer_size buffer ≤ buffer_size buffer')
  ∧ ∀ scene st,
      let st' := snd (render scene st) in
      let frame := frame_of st st' in
      let selected := relevant_objects (this st) scene in
      let needed := 64 * length selected in
      let growing :=
        reaches_upload (this st) scene
        ∧ ∀ buffer, model_transforms (this st) = Some buffer →
                    buffer_size buffer < needed in
      ((∃ buffer data, GPU (createBuffer buffer data) ∈ frame) ↔ growing)
      ∧ (growing →
         ∃ buffer before after,
           model_transforms (this st') = Some buffer
           ∧ buffer_size buffer = needed
           ∧ frame
             = before ++ destroy_old (model_transforms (this st))
               ++ [GPU (createBuffer buffer (model_transforms_data selected))]
               ++ after
           ∧ Forall keeps_buffers (before ++ after))
      ∧ (¬ growing →
         model_transforms (this st') = model_transforms (this st)
         ∧ Forall keeps_buffers frame).
Proof.
  split.
  { intros earlier later st buffer Hbuffer. rewrite render_frames_app.
    by apply render_frames_held_buffer. }
  intros scene st. cbv zeta.
  replace (64 * length (relevant_objects (this st) scene))
    with (needed_model_transform_size (relevant_objects (this st) scene))
    by (unfold needed_model_transform_size; lia).
  rewrite <- grows_beyond_held_buffer.
  split; [split|split].
  - intros (buffer & data & Hin).
    destruct (grows_or_not get_pipeline_key scene st) as [|Hnot]; [done|].
    apply render_keeps in Hnot as [_ Hkeep].
    rewrite Forall_forall in Hkeep. by destruct (Hkeep _ Hin).
  - intros (buffer & before & after & _ & _ & -> & _)%render_grows.
    exists buffer, (model_transforms_data (relevant_objects (this st) scene)).
    rewrite !elem_of_app, elem_of_cons. auto.
  - apply render_grows.
  - apply render_keeps.
Qed.

(** C7: the objects drawn are exactly those whose pipeline key is this
    pipeline's key, in the order of the scene: the selection is a sublist
    of the scene's objects, all of its objects carry the key, and it is the
    greatest such sublist, so that no object with the key is left out and
    none is taken twice. The transform data uploaded to the pipeline's
    transform buffer holds one model matrix per selected object: its entry
    [16 i + j] is entry [j] of the matrix of the [i]-th selected object.
    Every draw of the frame is an instanced draw of as many instances as
    there are selected objects (one is issued when the uniform buffer
    exists and the model data resolves). *)
Theorem draws_the_routed_objects scene st :
  reaches_upload (this st) scene →
  let st' := snd (render scene st) in
  let frame := frame_of st st' in
  let selected := relevant_objects (this st) scene in
  let routed object :=
    pipeline_key object = get_pipeline_key (shader_path (this st)) in
  let data := model_transforms_data selected in
  (* routing *)
  selected `sublist_of` objects scene
  ∧ Forall routed selected
  ∧ (∀ others,
       others `sublist_of` objects scene → Forall routed others →
       others `sublist_of` selected)
  ∧ (∀ object, object ∈ selected ↔ object ∈ objects scene ∧ routed object)
  (* one matrix per selected object, in order *)
  ∧ length data = 16 * length selected
  ∧ (∀ i object j x,
       selected !! i = Some object →
       vec_to_list (get_model_matrix object) !! j = Some x →
       data !! (16 * i + j) = Some (fround x))
  (* uploaded to the transform buffer, which the bind group binds whole *)
  ∧ (∃ buffer,
       model_transforms (this st') = Some buffer
       ∧ (GPU (createBuffer buffer data) ∈ frame
          ∨ GPU (writeBuffer buffer 0 data) ∈ frame)
       ∧ ∀ descriptor group,
           GPU (createBindGroup descriptor group) ∈ frame →
           (5, buffer_binding buffer 0 (buffer_size buffer))
           ∈ entries descriptor)
  (* drawn with one instance per selected object *)
  ∧ (∀ pass indexCount instanceCount firstIndex baseVertex firstInstance,
       GPU (drawIndexed pass indexCount instanceCount firstIndex baseVertex
              firstInstance) ∈ frame →
       instanceCount = length selected ∧ firstInstance = 0)
  ∧ (∀ object_0 rest model_data,
       selected = object_0 :: rest →
       is_Some (uniform_buffer (this st)) →
       get_model_data object_0 = Some model_data →
       GPU (drawIndexed (next_handle (core st)) (index_count model_data)
              (length selected) 0 0 0) ∈ frame).
Proof.
  intros Hreach. cbv zeta.
  split. { apply sublist_filter. }
  split. { apply Forall_forall. unfold relevant_objects.
           by intros object [Hrouted _]%list_elem_of_filter. }
  split. { intros others. apply sublist_filter_greatest. }
  split. { intros object. unfold relevant_objects.
           rewrite list_elem_of_filter. tauto. }
  split. { apply length_model_transforms_data. }
  split. { intros i object j x. apply model_transforms_data_entry. }
  destruct Hreach as (? & ? & ? & ? & ? & ? & ? & ?).
  run_render st.
  all: split; [eexists; split; [reflexivity|]; split;
               [first [left; by in_frame | right; by in_frame]|]|].
  all: try (intros descriptor group Hin; frame_cases Hin; cbn [entries]; in_frame).
  all: split; [intros ?????? Hin; by frame_cases Hin|].
  all: intros ??? ? ? Hdata; settle; in_frame.
Qed.

(** C8: in a call that is not skipped, whatever the number of selected
    objects, the first of them alone supplies the textures and the mesh:
    the texture resolver is awaited on its three textures, the views bound
    at bindings 2, 3 and 4 are views of the textures resolved for them, the
    uniform data written starts with its three presence flags (1.0 for a
    texture it has, 0.0 otherwise, in the order diffuse, specular, normal),
    and the vertex buffer, the index buffer and the index count of the draw
    are those of its model data. *)
Theorem first_object_supplies_textures_and_mesh scene st object_0 rest :
  relevant_objects (this st) scene = object_0 :: rest →
  is_Some (texture_view scene) →
  is_Some (depth_texture_view scene) →
  let frame := frame_of st (snd (render scene st)) in
  let flags :=
    [if has_texture_diffuse object_0 then 1%float else 0%float;
     if has_texture_specular object_0 then 1%float else 0%float;
     if has_texture_normal object_0 then 1%float else 0%float] in
  (∀ ref, Await (await_load_texture ref) ∈ frame →
     ref ∈ [texture_diffuse object_0; texture_specular object_0;
            texture_normal object_0])
  ∧ Await (await_load_texture (texture_diffuse object_0)) ∈ frame
  ∧ (∀ descriptor group,
       GPU (createBindGroup descriptor group) ∈ frame →
       ∃ diffuse specular normal view_diffuse view_specular view_normal,
         load_texture scene (texture_diffuse object_0) = Some diffuse
         ∧ load_texture scene (texture_specular object_0) = Some specular
         ∧ load_texture scene (texture_normal object_0) = Some normal
         ∧ GPU (createView diffuse view_diffuse) ∈ frame
         ∧ GPU (createView specular view_specular) ∈ frame
         ∧ GPU (createView normal view_normal) ∈ frame
         ∧ (2, view_binding view_diffuse) ∈ entries descriptor
         ∧ (3, view_binding view_specular) ∈ entries descriptor
         ∧ (4, view_binding view_normal) ∈ entries descriptor)
  ∧ (∀ texture view,
       GPU (createView texture view) ∈ frame →
       Some texture
       ∈ [load_texture scene (texture_diffuse object_0);
          load_texture scene (texture_specular object_0);
          load_texture scene (texture_normal object_0)])
  (* the flags: every write is the transform data or starts with them *)
  ∧ (∀ buffer bufferOffset data,
       GPU (writeBuffer buffer bufferOffset data) ∈ frame →
       data = model_transforms_data (object_0 :: rest)
       ∨ take 3 data = flags)
  ∧ (resolves_textures scene object_0 →
     ∀ uniform,
       uniform_buffer (this st) = Some uniform →
       ∃ data,
         GPU (writeBuffer uniform 0 data) ∈ frame ∧ take 3 data = flags)
  (* the mesh *)
  ∧ (∀ pass slot buffer,
       GPU (setVertexBuffer pass slot buffer) ∈ frame →
       ∃ model_data,
         get_model_data object_0 = Some model_data
         ∧ buffer = vertex_data_gpu model_data)
  ∧ (∀ pass buffer indexFormat,
       GPU (setIndexBuffer pass buffer indexFormat) ∈ frame →
       ∃ model_data,
         get_model_data object_0 = Some model_data
         ∧ buffer = indices_gpu model_data)
  ∧ (∀ pass indexCount instanceCount firstIndex baseVertex firstInstance,
       GPU (drawIndexed pass indexCount instanceCount firstIndex baseVertex
              firstInstance) ∈ frame →
       ∃ model_data,
         get_model_data object_0 = Some model_data
         ∧ indexCount = index_count model_data)
  ∧ (resolves_textures scene object_0 →
     is_Some (uniform_buffer (this st)) →
     ∀ model_data,
       get_model_data object_0 = Some model_data →
       ∃ pass,
         GPU (setVertexBuffer pass 0 (vertex_data_gpu model_data)) ∈ frame
         ∧ GPU (setIndexBuffer pass (indices_gpu model_data) "uint32") ∈ frame
         ∧ GPU (drawIndexed pass (index_count model_data) (S (length rest))
                  0 0 0) ∈ frame).
Proof.
  intros Hrel Hview Hdepth frame flags.
  assert (Hflags :
    take 3 (uniform_data (flag (has_texture_diffuse object_0))
              (flag (has_texture_specular object_0))
              (flag (has_texture_normal object_0))
              (camera scene) (lights scene)) = flags)
    by apply uniform_data_flags.
  clearbody flags. subst frame. run_render st.
  all: split; [intros ref Hin; frame_cases Hin; in_frame|].
  all: split; [in_frame|].
  all: split;
    [intros descriptor group Hin; frame_cases Hin;
     eexists _, _, _, _, _, _; do 3 (split; [reflexivity|]);
     cbn [entries]; repeat split; in_frame|].
  all: split; [intros texture view Hin; frame_cases Hin; in_frame|].
  all: split; [intros buffer bufferOffset data Hin; frame_cases Hin; auto|].
  all: split;
    [unfold resolves_textures; intros (? & ? & ?) uniform Huniform; settle;
     try (eexists; split; [in_frame|first [exact Hflags | reflexivity]])|].
  all: split; [intros pass slot buffer Hin; frame_cases Hin; eauto|].
  all: split; [intros pass buffer indexFormat Hin; frame_cases Hin; eauto|].
  all: split; [intros ?????? Hin; frame_cases Hin; eauto|].
  all: unfold resolves_textures; intros (? & ? & ?) ? model_data ?; settle.
  all: eexists; repeat split; in_frame.
Qed.



End PipelineData.

(** ** The theorems at work on the example *)

Example construct_example :
  construct_pipeline "shaders/default.wgsl" scene_of_three fresh_core
  = (Fulfilled example_pipeline, core constructed).
Proof. vm_compute. reflexivity. Qed.

(** The end-to-end scenario: two of three objects are routed to the
    pipeline; the frame allocates a transform buffer for two matrices,
    writes a light count of 2 and draws two instances. *)
Example first_frame_example :
  this after_first_frame
  = with_model_transforms first_transform_buffer example_pipeline
  ∧ uniform_data 1 0 1 example_camera [lamp; sun] !! 3 = Some 2%float
  ∧ last (frame_of constructed after_first_frame) = Some (GPU (end_pass 5))
  ∧ GPU (drawIndexed 5 36 2 0 0 0) ∈ frame_of constructed after_first_frame.
Proof.
  split; [by vm_compute|]. split; [by vm_compute|]. split; [by vm_compute|].
  vm_compute. in_frame.
Qed.

(** The scale-up scenario: a frame with one object, then one with five: the
    second frame destroys the 64-byte buffer and creates one of 320 bytes. *)
Example scale_up_example :
  let one := example_scene [barrel] [lamp] in
  let five := example_scene (replicate 5 crate) [lamp] in
  let st1 := snd (render example_pipeline_key one constructed) in
  let st2 := snd (render example_pipeline_key five st1) in
  (buffer_size <$> model_transforms (this st1)) = Some 64
  ∧ (buffer_size <$> model_transforms (this st2)) = Some 320
  ∧ length (filter (λ e, is_destroy e = true) (frame_of st1 st2)) = 1
  ∧ length (filter (λ e, is_createBuffer e = true) (frame_of st1 st2)) = 1.
Proof. by vm_compute. Qed.

(** What is stored for a light count of 11 is 11. *)
Example light_count_11 : fround (number_of_nat 11) = 11%float.
Proof. by vm_compute. Qed.

(** C1, the claim as first stated, fails: with two lights the packed
    sequence has 52 floats, not the 116 of the uniform layout. *)
Lemma uniform_data_of_two_lights_is_shorter :
  length (uniform_data 1 0 1 example_camera [lamp; sun]) = 52
  ∧ length (uniform_data 1 0 1 example_camera [lamp; sun])
    ≠ DEFAULT_3D_UNIFORM_DATA_SIZE_FLOAT.
Proof. split; [by vm_compute|]. vm_compute. discriminate. Qed.

(** The layout of the uniform data, on the two lights of the example. *)
Lemma uniform_data_layout_witness :
  Forall light_shaped [lamp; sun]
  ∧ length (uniform_data 1 0 1 example_camera [lamp; sun]) = 36 + 8 * 2
  ∧ take 8 (drop (36 + 8 * 1) (uniform_data 1 0 1 example_camera [lamp; sun]))
    = Float32Array [10; 50; 10; 0; 1; 0.5; 0.25; 8]%float.
Proof.
  assert (Hshaped : Forall light_shaped [lamp; sun])
    by (repeat constructor).
  split; [exact Hshaped|].
  destruct (uniform_data_layout 1 0 1 example_camera [lamp; sun] Hshaped)
    as (Hlength & _ & _ & _ & _ & Hrecord).
  split; [exact Hlength|]. exact (Hrecord 1 sun eq_refl).
Defined.

(** C2, the claim as first stated, fails: the first frame of the example
    records the begin of the render pass before it awaits any texture. *)
Lemma pass_begins_before_texture_awaits :
  ¬ commands_follow_texture_awaits (frame_of constructed after_first_frame).
Proof.
  intros Hafter.
  assert (Hlt : 2 < 0); [|inversion Hlt].
  apply (Hafter 0 2 (beginRenderPass 50 51 5) (Some "crate.png"));
    by vm_compute.
Qed.

(** The start of the first frame of the example. *)
Lemma texture_awaits_follow_pass_begin_witness :
  relevant_objects example_pipeline_key (this constructed) scene_of_three
  = [crate; barrel]
  ∧ take 3 (frame_of constructed after_first_frame)
    = [GPU (beginRenderPass 50 51 5); GPU (setPipeline 5 3);
       Await (await_load_texture (Some "crate.png"))].
Proof.
  assert (Hrelevant :
    relevant_objects example_pipeline_key (this constructed) scene_of_three
    = [crate; barrel]) by (vm_compute; reflexivity).
  split; [exact Hrelevant|].
  exact (proj1 (texture_awaits_follow_pass_begin example_pipeline_key
                  scene_of_three constructed crate [barrel] 50 51
                  Hrelevant eq_refl eq_refl)).
Defined.



(** The buffer over the frames of the example: two objects, then one. *)
Lemma transform_buffer_grows_on_demand_witness :
  model_transforms
    (this (render_frames example_pipeline_key [scene_of_three] constructed))
  = Some first_transform_buffer
  ∧ ∃ buffer',
      model_transforms
        (this (render_frames example_pipeline_key
                 ([scene_of_three] ++ [scene_of_one]) constructed))
      = Some buffer'
      ∧ buffer_size first_transform_buffer ≤ buffer_size buffer'.
Proof.
  assert (Hfirst :
    model_transforms
      (this (render_frames example_pipeline_key [scene_of_three] constructed))
    = Some first_transform_buffer) by (vm_compute; reflexivity).
  split; [exact Hfirst|].
  exact (proj1 (transform_buffer_grows_on_demand example_pipeline_key)
           [scene_of_three] [scene_of_one] constructed first_transform_buffer
           Hfirst).
Defined.

(** A second frame with one object, written into the buffer of two: the
    second matrix of the first frame stays in the buffer. *)
Lemma transform_buffer_written_in_place_witness :
  needed_model_transform_size
    (relevant_objects example_pipeline_key (this after_first_frame)
       scene_of_one) = 64
  ∧ current_model_transforms_size (this after_first_frame) = 128
  ∧ memory (core after_first_frame) !! 6
    = Some {| contents := model_transforms_data [crate; barrel];
              destroyed := false |}
  ∧ memory (core (snd (render example_pipeline_key scene_of_one
                         after_first_frame))) !! 6
    = Some {| contents :=
                model_transforms_data [barrel]
                ++ drop 16 (model_transforms_data [crate; barrel]);
              destroyed := false |}.
Proof.
  assert (Hlive :
    memory (core after_first_frame) !! buffer_id first_transform_buffer
    = Some {| contents := model_transforms_data [crate; barrel];
              destroyed := false |}) by (vm_compute; reflexivity).
  assert (Hreach :
    reaches_upload example_pipeline_key (this after_first_frame) scene_of_one).
  { exists barrel, []. split; [vm_compute; reflexivity|].
    split; [by exists 50|]. split; [by exists 51|].
    split; [by exists 0|]. split; [by exists 12|]. by exists 0. }
  assert (Hfits :
    needed_model_transform_size
      (relevant_objects example_pipeline_key (this after_first_frame)
         scene_of_one)
    ≤ current_model_transforms_size (this after_first_frame))
    by (vm_compute; repeat constructor).
  split; [vm_compute; reflexivity|]. split; [vm_compute; reflexivity|].
  split; [exact Hlive|].
  destruct (transform_buffer_written_in_place example_pipeline_key
              scene_of_one after_first_frame Hreach Hfits)
    as (buffer & Hbuffer & _ & _ & _ & Hmemory).
  assert (Hfirst : buffer = first_transform_buffer).
  { vm_compute in Hbuffer. by injection Hbuffer as <-. }
  subst buffer. apply Hmemory.
  - exact Hlive.
  - vm_compute. discriminate.
  - intros uniform Huniform. vm_compute in Huniform.
    injection Huniform as <-. vm_compute. discriminate.
Defined.

(** A scene whose objects are all routed elsewhere. *)
Lemma render_skip_is_noop_witness :
  relevant_objects example_pipeline_key (this constructed) scene_of_others = []
  ∧ render example_pipeline_key scene_of_others constructed
    = (Fulfilled tt, constructed).
Proof.
  assert (Hnone :
    relevant_objects example_pipeline_key (this constructed) scene_of_others
    = []) by (vm_compute; reflexivity).
  split; [exact Hnone|].
  exact (proj1 (render_skip_is_noop example_pipeline_key scene_of_others
                  constructed (or_introl Hnone))).
Defined.

(** The first frame of the example draws two instances; entry 13 of the
    second matrix uploaded is the 2.0 of the barrel's translation. *)
Lemma draws_the_routed_objects_witness :
  reaches_upload example_pipeline_key (this constructed) scene_of_three
  ∧ relevant_objects example_pipeline_key (this constructed) scene_of_three
    `sublist_of` [crate; sky; barrel]
  ∧ [crate; barrel]
    `sublist_of` relevant_objects example_pipeline_key (this constructed)
                   scene_of_three
  ∧ model_transforms_data
      (relevant_objects example_pipeline_key (this constructed) scene_of_three)
    !! (16 * 1 + 13)
    = Some 2%float
  ∧ GPU (drawIndexed 5 36 2 0 0 0) ∈ frame_of constructed after_first_frame.
Proof.
  assert (Hrelevant :
    relevant_objects example_pipeline_key (this constructed) scene_of_three
    = [crate; barrel]) by (vm_compute; reflexivity).
  assert (Hreach :
    reaches_upload example_pipeline_key (this constructed) scene_of_three).
  { exists crate, [barrel]. split; [exact Hrelevant|].
    split; [by exists 50|]. split; [by exists 51|].
    split; [by exists 9|]. split; [by exists 0|]. by exists 11. }
  assert (Hrouted :
    Forall (λ object,
              pipeline_key object
              = example_pipeline_key (shader_path (this constructed)))
      [crate; barrel]) by (repeat constructor).
  assert (Hsub : [crate; barrel] `sublist_of` objects scene_of_three)
    by (apply sublist_skip, sublist_cons, sublist_skip, sublist_nil).
  split; [exact Hreach|].
  destruct (draws_the_routed_objects example_pipeline_key scene_of_three
              constructed Hreach)
    as (Hsublist & _ & Hgreatest & _ & _ & Hentry & _ & _ & Hdraw).
  split; [exact Hsublist|].
  split; [exact (Hgreatest [crate; barrel] Hsub Hrouted)|].
  split.
  - apply (Hentry 1 barrel 13 2%float); [by rewrite Hrelevant|reflexivity].
  - exact (Hdraw crate [barrel] (example_mesh 100 101 36) Hrelevant
             (ex_intro _ _ eq_refl) eq_refl).
Defined.

(** The first frame of the example draws with the crate's textures, flags
    (diffuse and normal, no specular) and mesh. *)
Lemma first_object_supplies_textures_and_mesh_witness :
  relevant_objects example_pipeline_key (this constructed) scene_of_three
  = [crate; barrel]
  ∧ Await (await_load_texture (Some "crate.png"))
    ∈ frame_of constructed after_first_frame
  ∧ (∃ data,
       GPU (writeBuffer {| buffer_id := 4; buffer_size := 464;
                           buffer_usage := 0x48 |} 0 data)
       ∈ frame_of constructed after_first_frame
       ∧ take 3 data = [1; 0; 1]%float)
  ∧ ∃ pass,
      GPU (setVertexBuffer pass 0 (vertex_data_gpu (example_mesh 100 101 36)))
      ∈ frame_of constructed after_first_frame
      ∧ GPU (setIndexBuffer pass (indices_gpu (example_mesh 100 101 36))
               "uint32")
        ∈ frame_of constructed after_first_frame
      ∧ GPU (drawIndexed pass 36 2 0 0 0)
        ∈ frame_of constructed after_first_frame.
Proof.
  assert (Hrelevant :
    relevant_objects example_pipeline_key (this constructed) scene_of_three
    = [crate; barrel]) by (vm_compute; reflexivity).
  assert (Hresolves : resolves_textures scene_of_three crate)
    by exact (conj (ex_intro _ 9 eq_refl)
                (conj (ex_intro _ 0 eq_refl) (ex_intro _ 11 eq_refl))).
  split; [exact Hrelevant|].
  destruct (first_object_supplies_textures_and_mesh example_pipeline_key
              scene_of_three constructed crate [barrel] Hrelevant
              (ex_intro _ 50 eq_refl) (ex_intro _ 51 eq_refl))
    as (_ & Hawait & _ & _ & _ & Hflags & _ & _ & _ & Hmesh).
  split; [exact Hawait|].
  split; [exact (Hflags Hresolves _ eq_refl)|].
  exact (Hmesh Hresolves (ex_intro _ _ eq_refl) (example_mesh 100 101 36)
           eq_refl).
Defined.

(** The first frame of the example, run on a pipeline without a transform
    buffer. *)
Lemma model_transforms_never_undefined_witness :
  fst (render example_pipeline_key scene_of_three constructed)
  ≠ Rejected (TypeError "model_transforms").
Proof.
  exact (proj2 (model_transforms_never_undefined example_pipeline_key
                  scene_of_three constructed)).
Defined.

(** ** The pipeline over its lifetime, on the example *)

(** The first frame of the example reaches the grow-or-write step. *)
Lemma first_frame_reaches_upload :
  reaches_upload example_pipeline_key (this constructed) scene_of_three.
Proof.
  exists crate, [barrel]. split; [vm_compute; reflexivity|].
  split; [by exists 50|]. split; [by exists 51|].
  split; [by exists 9|]. split; [by exists 0|]. by exists 11.
Defined.

(** Two frames of the example leave the pipeline the shader it was made
    from. *)
Lemma pipeline_identity_is_kept_witness :
  shader_path
    (this (render_frames example_pipeline_key [scene_of_three; scene_of_one]
             constructed))
  = shader_path (this constructed).
Proof.
  exact (proj1 (pipeline_identity_is_kept example_pipeline_key
                  [scene_of_three; scene_of_one] constructed)).
Defined.

(** One object, five, then two: the capacity is that of five. *)
Lemma capacity_is_high_water_mark_witness :
  current_model_transforms_size
    (this (render_frames example_pipeline_key
             [scene_of_barrel; scene_of_five; scene_of_three] constructed))
  = current_model_transforms_size (this constructed)
    `max` max_list
            (upload_demand example_pipeline_key (this constructed)
             <$> [scene_of_barrel; scene_of_five; scene_of_three]).
Proof.
  exact (capacity_is_high_water_mark example_pipeline_key
           [scene_of_barrel; scene_of_five; scene_of_three] constructed).
Defined.

(** The frame of one object after the frame of two keeps the buffer. *)
Lemma next_frame_reuses_buffer_witness :
  reaches_upload example_pipeline_key (this constructed) scene_of_three
  ∧ length (relevant_objects example_pipeline_key (this constructed)
              scene_of_one)
    ≤ length (relevant_objects example_pipeline_key (this constructed)
                scene_of_three)
  ∧ model_transforms
      (this (snd (render example_pipeline_key scene_of_one after_first_frame)))
    = model_transforms (this after_first_frame).
Proof.
  assert (Hfewer :
    length (relevant_objects example_pipeline_key (this constructed)
              scene_of_one)
    ≤ length (relevant_objects example_pipeline_key (this constructed)
                scene_of_three)) by (vm_compute; lia).
  split; [exact first_frame_reaches_upload|]. split; [exact Hfewer|].
  exact (proj1 (next_frame_reuses_buffer example_pipeline_key scene_of_three
                  scene_of_one constructed first_frame_reaches_upload Hfewer)).
Defined.

(** After the first frame of the example the buffer holds its two
    matrices. *)
Lemma draw_stays_within_transform_buffer_witness :
  needed_model_transform_size
    (relevant_objects example_pipeline_key (this constructed) scene_of_three)
  ≤ current_model_transforms_size (this after_first_frame).
Proof.
  exact (proj1 (draw_stays_within_transform_buffer example_pipeline_key
                  scene_of_three constructed) first_frame_reaches_upload).
Defined.

(** The crate's normal map is missing: the call rejects on it. *)
Lemma render_rejects_by_first_rejected_texture_witness :
  relevant_objects example_pipeline_key (this constructed)
    scene_with_missing_texture
  = [crate; barrel]
  ∧ first_rejected_texture scene_with_missing_texture crate
    = Some (Some "crate_n.png")
  ∧ fst (render example_pipeline_key scene_with_missing_texture constructed)
    = Rejected (rejected_by (await_load_texture (Some "crate_n.png"))).
Proof.
  assert (Hrelevant :
    relevant_objects example_pipeline_key (this constructed)
      scene_with_missing_texture
    = [crate; barrel]) by (vm_compute; reflexivity).
  assert (Hfirst :
    first_rejected_texture scene_with_missing_texture crate
    = Some (Some "crate_n.png")) by (vm_compute; reflexivity).
  split; [exact Hrelevant|]. split; [exact Hfirst|].
  exact (proj1 (render_rejects_by_first_rejected_texture example_pipeline_key
                  scene_with_missing_texture constructed crate [barrel]
                  (Some "crate_n.png") Hrelevant
                  (ex_intro _ 50 eq_refl) (ex_intro _ 51 eq_refl) Hfirst)).
Defined.

(** The first frame of the example fulfils, and ends its pass last. *)
Lemma render_pass_is_bracketed_witness :
  fst (render example_pipeline_key scene_of_three constructed) = Fulfilled tt
  ∧ last (frame_of constructed after_first_frame) = Some (GPU (end_pass 5)).
Proof.
  assert (Hdone :
    fst (render example_pipeline_key scene_of_three constructed)
    = Fulfilled tt) by (vm_compute; reflexivity).
  split; [exact Hdone|].
  destruct (proj1 (proj2 (render_pass_is_bracketed example_pipeline_key
                            scene_of_three constructed)) Hdone)
    as [Hnone|(_ & _ & _ & Hlast)].
  - vm_compute in Hnone. discriminate Hnone.
  - exact Hlast.
Defined.

(** Eleven lights: the write of 124 floats is dropped, and the uniform
    buffer stays zero-filled. *)
Lemma uniform_write_lands_iff_it_fits_witness :
  length (lights crowded_scene) = 11
  ∧ memory (core constructed) !! 4
    = Some {| contents := replicate 116 0%float; destroyed := false |}
  ∧ memory (core (snd (render example_pipeline_key crowded_scene constructed)))
    !! 4
    = Some {| contents := replicate 116 0%float; destroyed := false |}.
Proof.
  assert (Hrelevant :
    relevant_objects example_pipeline_key (this constructed) crowded_scene
    = [crate; barrel]) by (vm_compute; reflexivity).
  assert (Hshaped : Forall light_shaped (lights crowded_scene))
    by (repeat constructor).
  assert (Hold :
    memory (core constructed)
    !! buffer_id {| buffer_id := 4; buffer_size := 464; buffer_usage := 0x48 |}
    = Some {| contents := replicate 116 0%float; destroyed := false |})
    by (vm_compute; reflexivity).
  assert (Hmany : 10 < length (lights crowded_scene)) by (vm_compute; lia).
  split; [reflexivity|]. split; [exact Hold|].
  exact (proj2 (proj2
    (uniform_write_lands_iff_it_fits example_pipeline_key crowded_scene
       constructed crate [barrel]
       {| buffer_id := 4; buffer_size := 464; buffer_usage := 0x48 |}
       (replicate 116 0%float)
       (constructed_pipeline_owns_its_buffers example_pipeline_key
          "shaders/default.wgsl" scene_of_three fresh_core example_pipeline
          (core constructed) construct_example [])
       Hrelevant (ex_intro _ 50 eq_refl) (ex_intro _ 51 eq_refl)
       (conj (ex_intro _ 9 eq_refl)
          (conj (ex_intro _ 0 eq_refl) (ex_intro _ 11 eq_refl)))
       eq_refl eq_refl Hold Hshaped)) Hmany).
Defined.

(** The bind group of the first frame of the example. *)
Lemma bind_group_follows_declared_layout_witness :
  GPU (createBindGroup example_bind_group 12)
  ∈ frame_of constructed after_first_frame
  ∧ GPU (getBindGroupLayout 3 0 7) ∈ frame_of constructed after_first_frame
  ∧ GPU (setBindGroup 5 0 12) ∈ frame_of constructed after_first_frame.
Proof.
  assert (Hgroup :
    GPU (createBindGroup example_bind_group 12)
    ∈ frame_of constructed
        (snd (render example_pipeline_key scene_of_three constructed)))
    by (vm_compute; in_frame).
  split; [exact Hgroup|].
  destruct (bind_group_follows_declared_layout example_pipeline_key
              scene_of_three constructed example_bind_group 12 Hgroup)
    as (_ & Hlayout & _ & Hset).
  split; [exact Hlayout|exact Hset].
Defined.

(** Without a shader nothing is created. *)
Lemma construct_pipeline_rejects_without_shader_witness :
  get_shader scene_without_shader "shaders/default.wgsl" = None
  ∧ fst (construct_pipeline "shaders/default.wgsl" scene_without_shader
           fresh_core)
    = Rejected (rejected_by (await_get_shader "shaders/default.wgsl"))
  ∧ next_handle
      (snd (construct_pipeline "shaders/default.wgsl" scene_without_shader
              fresh_core))
    = next_handle fresh_core.
Proof.
  split; [reflexivity|].
  destruct (construct_pipeline_rejects_without_shader "shaders/default.wgsl"
              scene_without_shader fresh_core eq_refl)
    as (Hrejected & Hhandle & _).
  split; [exact Hrejected|exact Hhandle].
Defined.

(** The construction of the example. *)
Lemma construct_pipeline_creates_pipeline_and_uniform_buffer_witness :
  get_shader scene_of_three "shaders/default.wgsl"
  = Some "@vertex fn main() {}"
  ∧ ∃ pipeline core',
      construct_pipeline "shaders/default.wgsl" scene_of_three fresh_core
      = (Fulfilled pipeline, core')
      ∧ buffers_as_constructed pipeline.
Proof.
  split; [reflexivity|].
  destruct (construct_pipeline_creates_pipeline_and_uniform_buffer
              "shaders/default.wgsl" scene_of_three fresh_core
              "@vertex fn main() {}" eq_refl)
    as (pipeline & core' & uniform & Hrun & _ & _ & _ & Hshape & _).
  exists pipeline, core'. split; [exact Hrun|exact Hshape].
Defined.

(** The pipeline of the example after two frames. *)
Lemma constructed_pipeline_stays_well_formed_witness :
  owns_its_buffers
    (render_frames example_pipeline_key [scene_of_three; scene_of_one]
       constructed)
  ∧ buffers_as_constructed
      (this (render_frames example_pipeline_key [scene_of_three; scene_of_one]
               constructed)).
Proof.
  destruct (constructed_pipeline_stays_well_formed example_pipeline_key
              "shaders/default.wgsl" scene_of_three fresh_core example_pipeline
              (core constructed) [scene_of_three; scene_of_one]
              construct_example)
    as (Howns & Hshape & _).
  split; [exact Howns|exact Hshape].
Defined.

(** A frame of the second pipeline leaves the transform buffer of the first
    as it was. *)
Lemma render_leaves_other_buffers_witness :
  memory (core (snd (render example_pipeline_key scene_of_three
                       second_constructed))) !! 6
  = memory (core second_constructed) !! 6.
Proof.
  apply (render_leaves_other_buffers example_pipeline_key scene_of_three
           second_constructed 6).
  - vm_compute. lia.
  - intros uniform Huniform. vm_compute in Huniform.
    injection Huniform as <-. vm_compute. discriminate.
  - intros buffer Hbuffer. vm_compute in Hbuffer. discriminate.
Defined.

(** One object, then five: the buffer of the first frame is destroyed by
    the second. *)
Lemma replaced_transform_buffers_are_destroyed_witness :
  GPU (createBuffer {| buffer_id := 6; buffer_size := 64; buffer_usage := 0x88 |}
         (model_transforms_data [barrel]))
  ∈ frame_of constructed
      (render_frames example_pipeline_key [scene_of_barrel; scene_of_five]
         constructed)
  ∧ (model_transforms
       (this (render_frames example_pipeline_key
                [scene_of_barrel; scene_of_five] constructed))
     = Some {| buffer_id := 6; buffer_size := 64; buffer_usage := 0x88 |}
     ∨ ∃ contents,
         memory (core (render_frames example_pipeline_key
                         [scene_of_barrel; scene_of_five] constructed)) !! 6
         = Some {| contents := contents; destroyed := true |}).
Proof.
  assert (Hcreated :
    GPU (createBuffer
           {| buffer_id := 6; buffer_size := 64; buffer_usage := 0x88 |}
           (model_transforms_data [barrel]))
    ∈ frame_of constructed
        (render_frames example_pipeline_key [scene_of_barrel; scene_of_five]
           constructed)) by (vm_compute; in_frame).
  split; [exact Hcreated|].
  exact (replaced_transform_buffers_are_destroyed example_pipeline_key
           [scene_of_barrel; scene_of_five] constructed
           {| buffer_id := 6; buffer_size := 64; buffer_usage := 0x88 |}
           (model_transforms_data [barrel]) Hcreated).
Defined.
